(** * The offline link of the AppSync client: interceptor and discard predicate

    A shallow embedding of [packages/aws-appsync/src/link/offline-link.js]:
    [OfflineLink.request], [processOfflineQuery], [processMutation],
    [reducer], [offlineEffect] and [discard].

    JavaScript values are a first-order datatype with the language's
    truthiness; code that reads the store, dispatches, talks to the observer
    or may throw lives in a state-and-exception monad; the in-place update of
    the queued action is state passing over the action (and, for the
    statements about two calls, over a heap of action objects). *)

From Stdlib Require Import ZArith String List Bool Lia DecimalString.
From stdpp Require Import base option gmap.
Import ListNotations.

Local Open Scope string_scope.
Local Open Scope Z_scope.
Local Open Scope list_scope.

Set Warnings "-register-all".

(** ** JavaScript values *)

Module JS.

(** The values the link inspects.  Numbers are the integers (retry counts,
    indices); functions are kept out of [value] and appear where the code
    expects one ([Optimistic], [Callback]). *)
Inductive value : Type :=
| VUndefined
| VNull
| VBool (b : bool)
| VNum (n : Z)
| VStr (s : string)
| VArr (items : list value)
| VObj (fields : list (string * value)).

(** ToBoolean: what [if (v)], [v ? a : b], [!v] and [a || b] test. *)
Definition toBoolean (v : value) : bool :=
  match v with
  | VUndefined | VNull => false
  | VBool b => b
  | VNum n => negb (n =? 0)
  | VStr s => negb (String.eqb s "")
  | VArr _ | VObj _ => true
  end.

(** [a || b] *)
Definition or (a b : value) : value := if toBoolean a then a else b.

(** [v === 'lit'] for a string literal. *)
Definition strictEqStr (v : value) (lit : string) : bool :=
  match v with
  | VStr s => String.eqb s lit
  | _ => false
  end.

Definition indexKey (i : nat) : string :=
  NilEmpty.string_of_uint (Nat.to_uint i).

Fixpoint indexed (i : nat) (xs : list value) : list (string * value) :=
  match xs with
  | [] => []
  | x :: rest => (indexKey i, x) :: indexed (S i) rest
  end.

Fixpoint chars (s : string) : list value :=
  match s with
  | EmptyString => []
  | String c rest => VStr (String c EmptyString) :: chars rest
  end.

(** [{ ...v }]: a fresh object holding the own enumerable properties of
    [v]; primitives other than strings have none. *)
Definition spread (v : value) : value :=
  match v with
  | VObj fields => VObj fields
  | VArr items => VObj (indexed 0 items)
  | VStr s => VObj (indexed 0 (chars s))
  | VUndefined | VNull | VBool _ | VNum _ => VObj []
  end.

(** What a [throw] carries: a [TypeError] of the language, a plain
    [new Error(msg)] of a library, or the value user code threw. *)
Inductive exn : Type :=
| TypeError (msg : string)
| PlainError (msg : string)
| Thrown (v : value).

(** A destructuring default [= d]: it applies to a missing property and to
    one that holds [undefined]. *)
Definition orDefault (d : value) (o : option value) : value :=
  match o with
  | None | Some VUndefined => d
  | Some v => v
  end.

Inductive result (A : Type) : Type :=
| Ok (a : A)
| Throw (e : exn).
Arguments Ok {A} a.
Arguments Throw {A} e.

End JS.
Export JS.

(** ** State and exceptions

  A computation reads and updates a state [S] and either returns or throws;
  the state reached before a throw is kept, as in the source. *)

Module Eff.

Definition M (S A : Type) : Type := S -> result A * S.

Definition ret {S A} (a : A) : M S A := fun s => (Ok a, s).

Definition bind {S A B} (m : M S A) (k : A -> M S B) : M S B :=
  fun s =>
    match m s with
    | (Ok a, s') => k a s'
    | (Throw e, s') => (Throw e, s')
    end.

Definition throw {S A} (e : exn) : M S A := fun s => (Throw e, s).

Definition get {S} : M S S := fun s => (Ok s, s).

Definition modify {S} (f : S -> S) : M S unit := fun s => (Ok tt, f s).

(** A call into user code. *)
Definition call {S A} (r : result A) : M S A := fun s => (r, s).

(** Property access on what may be [undefined]. *)
Definition defined {S A} (o : option A) (msg : string) : M S A :=
  match o with
  | Some a => ret a
  | None => throw (TypeError msg)
  end.

(** [try { m } catch (err) { h err }] *)
Definition tryCatch {S A} (m : M S A) (h : exn -> M S A) : M S A :=
  fun s =>
    match m s with
    | (Ok a, s') => (Ok a, s')
    | (Throw e, s') => h e s'
    end.

End Eff.
Import Eff.

Declare Scope eff_scope.
Delimit Scope eff_scope with eff.
Notation "'let*' x ':=' m 'in' k" := (bind m (fun x => k))
  (at level 10, x name, m at level 100, k at level 200) : eff_scope.
Notation "'exec' m 'then' k" := (bind m (fun _ => k))
  (at level 10, m at level 100, k at level 200) : eff_scope.
Local Open Scope eff_scope.

(** ** GraphQL documents, as [apollo-utilities] reads them *)

Record OperationDefinition : Type := {
  od_operation : string;          (* 'query' | 'mutation' | 'subscription' *)
  od_name : option string
}.

Inductive DefinitionNode : Type :=
| OperationDef (d : OperationDefinition)
| FragmentDef (name : string).

Record DocumentNode : Type := { definitions : list DefinitionNode }.

Definition operationDefinitions (doc : DocumentNode) : list OperationDefinition :=
  flat_map (fun d => match d with OperationDef o => [o] | FragmentDef _ => [] end)
    (definitions doc).

(** [checkDocument]: a document with more than one operation is refused. *)
Definition checkDocument (doc : DocumentNode) : result unit :=
  if Nat.ltb 1 (List.length (operationDefinitions doc))
  then Throw (PlainError "Ambiguous GraphQL document")
  else Ok tt.

(** The document is checked first; then its operation definition is
    returned, [undefined] when it has none. *)
Definition getOperationDefinition (doc : DocumentNode)
  : result (option OperationDefinition) :=
  match checkDocument doc with
  | Ok _ => Ok (head (operationDefinitions doc))
  | Throw e => Throw e
  end.

(** The name of the first named operation, [null] when there is none; the
    document is not checked here. *)
Definition getOperationName (doc : DocumentNode) : option string :=
  match List.filter (fun o => match od_name o with Some _ => true | None => false end)
          (operationDefinitions doc) with
  | o :: _ => od_name o
  | [] => None
  end.

(** ** Operations, effects and queue actions *)

(** [optimisticResponse]: a plain value or a function of the variables. *)
Inductive Optimistic : Type :=
| OptValue (v : value)
| OptFunction (f : value -> result value).

(** The [AASContext] bag of the operation context. *)
Record AASContextT : Type := {
  ctx_mutation : option DocumentNode;
  ctx_variables : value;
  ctx_optimisticResponse : Optimistic;
  ctx_refetchQueries : value;
  ctx_doIt : value
}.

Record Context : Type := { AASContext : option AASContextT }.

Record Operation : Type := {
  op_query : DocumentNode;
  op_variables : value;
  getContext : Context
}.

Record Effect : Type := {
  eff_mutation : option DocumentNode;
  eff_variables : value;
  eff_refetchQueries : value;
  eff_doIt : value
}.

(** [{ type, meta }] of the commit and rollback descriptors. *)
Record Descriptor : Type := { d_type : string; d_meta : value }.

Record OfflineMeta : Type := {
  effect : Effect;
  commit : Descriptor;
  rollback : Descriptor
}.

(** [{ type, payload, meta: { offline } }] *)
Record Action : Type := {
  a_type : string;
  a_payload : value;
  meta_offline : OfflineMeta
}.

(** [action.meta.offline.effect.variables = v] *)
Definition setVariables (v : value) (action : Action) : Action :=
  {| a_type := a_type action;
     a_payload := a_payload action;
     meta_offline :=
       {| effect :=
            {| eff_mutation := eff_mutation (effect (meta_offline action));
               eff_variables := v;
               eff_refetchQueries := eff_refetchQueries (effect (meta_offline action));
               eff_doIt := eff_doIt (effect (meta_offline action)) |};
          commit := commit (meta_offline action);
          rollback := rollback (meta_offline action) |} |}.

(** ** The store *)

Record OfflineState : Type := { online : bool }.

(** The slices of the store state the link reads: [offline], the slice under
    [NORMALIZED_CACHE_KEY] ([undefined] when absent) and [eclipse], the slice
    of [reducer]. *)
Record State : Type := {
  offline : OfflineState;
  normalizedCache : option value;
  eclipse : value
}.

(** [reducer().eclipse]; the parameter default [state = {}] covers
    [undefined]. *)
Definition reducer_eclipse (state : value) (action : Action) : value :=
  let state := match state with VUndefined => VObj [] | _ => state end in
  if String.eqb (a_type action) "SOME_ACTION" then spread state
  else if String.eqb (a_type action) "SOME_ACTION_COMMIT" then spread state
  else if String.eqb (a_type action) "SOME_ACTION_ROLLBACK" then spread state
  else state.

(** A store: its state and the log of the actions dispatched to it. *)
Record Store : Type := {
  getState : State;
  dispatched : list Action
}.

Definition dispatch (action : Action) (store : Store) : Store :=
  {| getState :=
       {| offline := offline (getState store);
          normalizedCache := normalizedCache (getState store);
          eclipse := reducer_eclipse (eclipse (getState store)) action |};
     dispatched := dispatched store ++ [action] |}.

(** ** Observers and the downstream link *)

Inductive Event : Type :=
| Next (v : value)
| Error (e : value)
| Complete.

(** What one run of the subscriber of [request] can touch: the store, the
    calls made to [forward], and what the observer was sent. *)
Record World : Type := {
  theStore : Store;
  forwarded : list Operation;
  observed : list Event
}.

(** The clean-up the subscriber returns: [() => null], or the function that
    unsubscribes the handle of the forwarded operation. *)
Inductive Teardown : Type :=
| TeardownNull
| TeardownUnsubscribe (operation : Operation).

Definition observer_next (v : value) : M World unit :=
  modify (fun w => {| theStore := theStore w; forwarded := forwarded w;
                      observed := observed w ++ [Next v] |}).

Definition observer_complete : M World unit :=
  modify (fun w => {| theStore := theStore w; forwarded := forwarded w;
                      observed := observed w ++ [Complete] |}).

Definition store_dispatch (action : Action) : M World unit :=
  modify (fun w => {| theStore := dispatch action (theStore w);
                      forwarded := forwarded w; observed := observed w |}).

(** [forward(operation).subscribe({ next, error, complete })] with the three
    handlers bound to the observer: the call is recorded and the events of
    the downstream observable reach the observer unchanged. *)
Definition forward_subscribe (forward : Operation -> list Event)
    (operation : Operation) : M World unit :=
  modify (fun w => {| theStore := theStore w;
                      forwarded := forwarded w ++ [operation];
                      observed := observed w ++ forward operation |}).

(** ** The link *)

Section OfflineLink.

(** [apollo-cache-inmemory], which the link only calls: the store view built
    from a normalized-cache object, and the reader of a query from it, which
    throws when the cache cannot answer. *)
Variable NormalizedCache : Type.
Variable defaultNormalizedCacheFactory : value -> NormalizedCache.
Variable readQueryFromStore :
  NormalizedCache -> DocumentNode -> value -> result value.

(** The downstream link: the events its observable delivers. *)
Variable forward : Operation -> list Event.

Definition processOfflineQuery (operation : Operation) : M World value :=
  let* w := get in
  let normalizedCache :=
    orDefault (VObj []) (normalizedCache (getState (theStore w))) in
  let query := op_query operation in
  let variables := op_variables operation in
  let store := defaultNormalizedCacheFactory normalizedCache in
  let* data := call (readQueryFromStore store query variables) in
  ret data.

Definition processMutation (operation : Operation) : M World value :=
  let* ctx := defined (AASContext (getContext operation))
                "Cannot destructure property of undefined" in
  if toBoolean (ctx_doIt ctx) then ret VUndefined
  else
    let* data :=
      match ctx_optimisticResponse ctx with
      | OptFunction optimisticResponse =>
          let* r := call (optimisticResponse (ctx_variables ctx)) in
          ret (spread r)
      | OptValue optimisticResponse =>
          if toBoolean optimisticResponse then ret optimisticResponse
          else ret VNull
      end in
    exec store_dispatch
      {| a_type := "SOME_ACTION";
         a_payload := VObj [];
         meta_offline :=
           {| effect :=
                {| eff_mutation := ctx_mutation ctx;
                   eff_variables := ctx_variables ctx;
                   eff_refetchQueries := ctx_refetchQueries ctx;
                   eff_doIt := VBool true |};
              commit := {| d_type := "SOME_ACTION_COMMIT"; d_meta := VNull |};
              rollback := {| d_type := "SOME_ACTION_ROLLBACK"; d_meta := VNull |} |} |}
    then ret data.

(** The tail of the subscriber: hand the operation to the downstream link. *)
Definition forwardOperation (operation : Operation) : M World Teardown :=
  exec forward_subscribe forward operation
  then ret (TeardownUnsubscribe operation).

(** [{ data }] *)
Definition dataResult (data : value) : value := VObj [("data", data)].

(** The subscriber of the observable [request] returns; one run of it is one
    subscription. *)
Definition request (operation : Operation) : M World Teardown :=
  let* w := get in
  let online := online (offline (getState (theStore w))) in
  let* found := call (getOperationDefinition (op_query operation)) in
  let* def := defined found
                "Cannot destructure property 'operation' of undefined" in
  let operationType := od_operation def in
  let isMutation := String.eqb operationType "mutation" in
  let isQuery := String.eqb operationType "query" in
  if negb online && isQuery then
    let* data := processOfflineQuery operation in
    exec observer_next (dataResult data) then
    exec observer_complete then
    ret TeardownNull
  else if isMutation then
    let* data := processMutation operation in
    if toBoolean data then
      exec observer_next (dataResult data) then
      exec observer_complete then
      ret TeardownNull
    else forwardOperation operation
  else forwardOperation operation.

End OfflineLink.

(** ** Replaying an effect *)

Record MutationOptions : Type := {
  mo_mutation : option DocumentNode;
  mo_variables : value;
  mo_refetchQueries : value;
  mo_context_AASContext_doIt : value
}.

(** [client.mutate] is the client's; the link builds its options. *)
Definition offlineEffect {R : Type} (client_mutate : MutationOptions -> R)
    (effect : Effect) (action : Action) : R :=
  let doIt := eff_doIt effect in
  let options :=
    {| mo_mutation := eff_mutation effect;
       mo_variables := eff_variables effect;
       mo_refetchQueries := eff_refetchQueries effect;
       mo_context_AASContext_doIt := doIt |} in
  client_mutate options.

(** ** The discard predicate *)

Record GraphQLError : Type := {
  errorType : option string;
  err_data : value;
  err_path : value
}.

Record NetworkError : Type := {
  ne_graphQLErrors : option (list GraphQLError)
}.

Record ErrorT : Type := {
  graphQLErrors : option (list GraphQLError);
  networkError : option NetworkError;
  permanent : value
}.

(** What the conflict resolver is called with. *)
Record ResolverArgs : Type := {
  ra_mutation : DocumentNode;
  ra_mutationName : option string;
  ra_operationType : string;
  ra_variables : value;
  ra_data : value;
  ra_retries : Z
}.

(** The argument [fn] of [discard]: a function, or some other value. *)
Inductive Callback : Type :=
| Function (f : ResolverArgs -> result value)
| NotAFunction (v : value).

(** The parameter default [fn = () => null] replaces [undefined] only. *)
Definition defaultFn (fn : Callback) : Callback :=
  match fn with
  | NotAFunction VUndefined => Function (fun _ => Ok VNull)
  | _ => fn
  end.

Definition isConditionalCheck (err : GraphQLError) : bool :=
  match errorType err with
  | Some t => String.eqb t "DynamoDB:ConditionalCheckFailedException"
  | None => false
  end.

(** [err.errorType && err.errorType.startsWith('AWSAppSyncClient:')] *)
Definition isAppSyncClientError (err : GraphQLError) : bool :=
  match errorType err with
  | Some t => negb (String.eqb t "") && String.prefix "AWSAppSyncClient:" t
  | None => false
  end.

(** [error.permanent || retries > 10] *)
Definition lastResort (error : ErrorT) (retries : Z) : value :=
  JS.or (permanent error) (VBool (10 <? retries)).

Definition discard_body (fn : Callback) (error : ErrorT) (retries : Z)
  : M Action value :=
  let fn := defaultFn fn in
  let graphQLErrors := default [] (graphQLErrors error) in
  let conditionalCheck := List.find isConditionalCheck graphQLErrors in
  match conditionalCheck with
  | Some conditionalCheck =>
      match fn with
      | Function fn =>
          let data := err_data conditionalCheck in
          let* action := get in
          let variables := eff_variables (effect (meta_offline action)) in
          let* mutation := defined (eff_mutation (effect (meta_offline action)))
                             "Cannot read property 'definitions' of undefined" in
          let mutationName := getOperationName mutation in
          let* found := call (getOperationDefinition mutation) in
          let* operationDefinition := defined found
                             "Cannot destructure property 'operation' of undefined" in
          let operationType := od_operation operationDefinition in
          let* decided :=
            tryCatch
              (let* conflictResolutionResult :=
                 call (fn {| ra_mutation := mutation;
                             ra_mutationName := mutationName;
                             ra_operationType := operationType;
                             ra_variables := variables;
                             ra_data := data;
                             ra_retries := retries |}) in
               if strictEqStr conflictResolutionResult "DISCARD" then
                 ret (Some (VBool true))
               else if toBoolean conflictResolutionResult then
                 exec modify (setVariables conflictResolutionResult) then
                 ret (Some (VBool false))
               else ret None)
              (fun err => ret (Some (VBool true))) in
          match decided with
          | Some returned => ret returned
          | None => ret (lastResort error retries)
          end
      | NotAFunction _ => ret (lastResort error retries)
      end
  | None =>
      if negb (Nat.eqb (List.length graphQLErrors) 0) then ret (VBool true)
      else
        let* graphQLErrors :=
          match networkError error with
          | None => ret []
          | Some ne => defined (ne_graphQLErrors ne)
                         "Cannot read property 'find' of undefined"
          end in
        let appSyncClientError := List.find isAppSyncClientError graphQLErrors in
        match appSyncClientError with
        | Some _ => ret (VBool true)
        | None => ret (lastResort error retries)
        end
  end.

(** [discard(fn)(error, action, retries)]: what is returned or thrown, and
    the action as the call leaves it. *)
Definition discard (fn : Callback) (error : ErrorT) (action : Action)
    (retries : Z) : result value * Action :=
  discard_body fn error retries action.

(** ** Action objects behind references

    The scheduler and [discard] share the action object; [discard_ref] is
    [discard] on the object a reference points to, in a heap of actions. *)

Definition discard_ref (fn : Callback) (error : ErrorT) (l : nat)
    (retries : Z) : M (gmap nat Action) value :=
  fun heap =>
    match heap !! l with
    | Some action =>
        let (returned, action') := discard fn error action retries in
        (returned, <[l := action']> heap)
    | None => (Throw (TypeError "Cannot read property 'meta' of undefined"), heap)
    end.

(** ** Vocabulary of the statements *)

(** [operation] is a [kind] operation: [getOperationDefinition] returns the
    operation definition of its document, and it is of that kind. *)
Definition operationKind (operation : Operation) (kind : string) : Prop :=
  exists def, getOperationDefinition (op_query operation) = Ok (Some def)
              /\ od_operation def = kind.

(** [declares o variables v]: [o] is a declared optimistic response and [v]
    is the value it stands for under [variables]: the value itself, or the
    shallow copy of what the function returns. *)
Inductive declares : Optimistic -> value -> value -> Prop :=
| declares_value (v variables : value) :
    toBoolean v = true -> declares (OptValue v) variables v
| declares_function (f : value -> result value) (variables r : value) :
    f variables = Ok r -> declares (OptFunction f) variables (spread r).

(** [o] evaluates to [data] in [processMutation]: as [declares], or [null]
    when nothing is declared. *)
Inductive optimisticData : Optimistic -> value -> value -> Prop :=
| optimistic_declared o variables v :
    declares o variables v -> optimisticData o variables v
| optimistic_none (v variables : value) :
    toBoolean v = false -> optimisticData (OptValue v) variables VNull.

(** The entry of [errors] that [find] returns for the conditional check. *)
Definition conditionalCheckOf (error : ErrorT) : option GraphQLError :=
  List.find isConditionalCheck (default [] (graphQLErrors error)).

(** The arguments [discard] hands to the resolver for [action]. *)
Definition resolverArgsOf (conditionalCheck : GraphQLError) (action : Action)
    (retries : Z) : option ResolverArgs :=
  match eff_mutation (effect (meta_offline action)) with
  | Some mutation =>
      match getOperationDefinition mutation with
      | Ok (Some def) =>
          Some {| ra_mutation := mutation;
                  ra_mutationName := getOperationName mutation;
                  ra_operationType := od_operation def;
                  ra_variables := eff_variables (effect (meta_offline action));
                  ra_data := err_data conditionalCheck;
                  ra_retries := retries |}
      | _ => None
      end
  | None => None
  end.

(** ** Sample inputs *)

Module Sample.

Definition mutationDoc : DocumentNode :=
  {| definitions :=
       [OperationDef {| od_operation := "mutation"; od_name := Some "UpdateItem" |}] |}.

Definition queryDoc : DocumentNode :=
  {| definitions :=
       [FragmentDef "ItemFields";
        OperationDef {| od_operation := "query"; od_name := Some "GetItem" |}] |}.

Definition vars : value := VObj [("id", VStr "7"); ("v", VNum 1)].

Definition optimisticItem : value :=
  VObj [("updateItem", VObj [("id", VStr "7"); ("v", VNum 1)])].

Definition context (o : Optimistic) (doIt : value) : Context :=
  {| AASContext :=
       Some {| ctx_mutation := Some mutationDoc;
               ctx_variables := vars;
               ctx_optimisticResponse := o;
               ctx_refetchQueries := VUndefined;
               ctx_doIt := doIt |} |}.

Definition mutationOp (o : Optimistic) (doIt : value) : Operation :=
  {| op_query := mutationDoc; op_variables := vars; getContext := context o doIt |}.

Definition queryOp : Operation :=
  {| op_query := queryDoc; op_variables := vars;
     getContext := {| AASContext := None |} |}.

Definition world (isOnline : bool) : World :=
  {| theStore :=
       {| getState :=
            {| offline := {| online := isOnline |};
               normalizedCache := Some (VObj [("Item:7", VObj [("v", VNum 1)])]);
               eclipse := VObj [] |};
          dispatched := [] |};
     forwarded := [];
     observed := [] |}.

(** A reader that answers from the entry of the cache named by the [id]
    variable and throws on a miss. *)
Definition lookupField (k : string) (v : value) : option value :=
  match v with
  | VObj fields =>
      match List.find (fun kv => String.eqb (fst kv) k) fields with
      | Some kv => Some (snd kv)
      | None => None
      end
  | _ => None
  end.

Definition reader (cache : value) (_ : DocumentNode) (variables : value)
  : result value :=
  match lookupField "id" variables with
  | Some (VStr id) =>
      match lookupField (String.append "Item:" id) cache with
      | Some item => Ok (VObj [("getItem", item)])
      | None => Throw (Thrown (VStr "Can't find field in cache"))
      end
  | _ => Throw (Thrown (VStr "Can't find field in cache"))
  end.

(** A downstream link that answers every operation with one result. *)
Definition downstream (_ : Operation) : list Event :=
  [Next (VObj [("data", VObj [("updateItem", VNull)])]); Complete].

Definition effectOf (variables : value) : Effect :=
  {| eff_mutation := Some mutationDoc;
     eff_variables := variables;
     eff_refetchQueries := VUndefined;
     eff_doIt := VBool true |}.

Definition queued : Action :=
  {| a_type := "SOME_ACTION";
     a_payload := VObj [];
     meta_offline :=
       {| effect := effectOf vars;
          commit := {| d_type := "SOME_ACTION_COMMIT"; d_meta := VNull |};
          rollback := {| d_type := "SOME_ACTION_ROLLBACK"; d_meta := VNull |} |} |}.

Definition conditionalCheckError : GraphQLError :=
  {| errorType := Some "DynamoDB:ConditionalCheckFailedException";
     err_data := VObj [("v", VNum 1)];
     err_path := VArr [VStr "x"] |}.

Definition conflict : ErrorT :=
  {| graphQLErrors := Some [conditionalCheckError];
     networkError := None;
     permanent := VBool false |}.

(** A failed fetch: a network error that is a plain [Error]. *)
Definition fetchFailed : ErrorT :=
  {| graphQLErrors := Some [];
     networkError := Some {| ne_graphQLErrors := None |};
     permanent := VBool false |}.

Definition transient : ErrorT :=
  {| graphQLErrors := Some [];
     networkError := Some {| ne_graphQLErrors := Some [] |};
     permanent := VBool false |}.

Definition resolveWith (v : value) : Callback := Function (fun _ => Ok v).

Definition resolveThrows : Callback :=
  Function (fun _ => Throw (Thrown (VStr "resolver failed"))).

(** An optimistic response computed from the variables. *)
Definition optimisticFrom : Optimistic :=
  OptFunction (fun variables => Ok (VObj [("updateItem", variables)])).

Definition optimisticMutation : Operation :=
  mutationOp (OptValue optimisticItem) (VBool false).

Definition computedMutation : Operation := mutationOp optimisticFrom (VBool false).

Definition plainMutation : Operation := mutationOp (OptValue VUndefined) (VBool false).

Definition replayedMutation : Operation := mutationOp (OptValue VUndefined) (VBool true).

(** One run of the subscriber of [request] over the sample cache reader and
    downstream link. *)
Definition run (operation : Operation) (w : World) : result Teardown * World :=
  request value (fun cache => cache) reader downstream operation w.

Definition heap : gmap nat Action := <[2%nat := queued]> (<[1%nat := queued]> ∅).

(** A resolver that corrects the variables once: it bumps [v] from 1 to 2
    and gives up on anything else. *)
Definition bumpOnce : Callback :=
  Function (fun args =>
    match lookupField "v" (ra_variables args) with
    | Some (VNum 1) => Ok (VObj [("id", VStr "7"); ("v", VNum 2)])
    | _ => Ok (VStr "DISCARD")
    end).

End Sample.

(** ** More vocabulary *)

(** What every action [processMutation] dispatches has, whatever the
    context: the type, the empty payload, the flag of the effect and the two
    descriptors. *)
Definition enqueueShaped (action : Action) : Prop :=
  a_type action = "SOME_ACTION"
  /\ a_payload action = VObj []
  /\ eff_doIt (effect (meta_offline action)) = VBool true
  /\ commit (meta_offline action) =
       {| d_type := "SOME_ACTION_COMMIT"; d_meta := VNull |}
  /\ rollback (meta_offline action) =
       {| d_type := "SOME_ACTION_ROLLBACK"; d_meta := VNull |}.

(** The world with the connectivity flag of the store set to [b]. *)
Definition withOnline (b : bool) (w : World) : World :=
  {| theStore :=
       {| getState :=
            {| offline := {| online := b |};
               normalizedCache := normalizedCache (getState (theStore w));
               eclipse := eclipse (getState (theStore w)) |};
          dispatched := dispatched (theStore w) |};
     forwarded := forwarded w;
     observed := observed w |}.

(** [fn] is callable once the parameter default is applied. *)
Definition callable (fn : Callback) : Prop :=
  exists f, defaultFn fn = Function f.

(** ** Inputs at the edges *)

Module Edge.

Definition fragmentsOnly : Operation :=
  {| op_query := {| definitions := [FragmentDef "ItemFields"] |};
     op_variables := Sample.vars;
     getContext := {| AASContext := None |} |}.

Definition subscriptionOp : Operation :=
  {| op_query :=
       {| definitions :=
            [OperationDef {| od_operation := "subscription";
                             od_name := Some "OnUpdateItem" |}] |};
     op_variables := Sample.vars;
     getContext := {| AASContext := None |} |}.

(** A mutation sent without the [AASContext] bag. *)
Definition bareMutation : Operation :=
  {| op_query := Sample.mutationDoc;
     op_variables := Sample.vars;
     getContext := {| AASContext := None |} |}.

Definition throwingOptimistic : Optimistic :=
  OptFunction (fun _ => Throw (Thrown (VStr "optimistic failed"))).

Definition nullOptimistic : Optimistic := OptFunction (fun _ => Ok VNull).

Definition validationError : GraphQLError :=
  {| errorType := Some "SomeValidationError";
     err_data := VUndefined; err_path := VUndefined |}.

Definition invalid : ErrorT :=
  {| graphQLErrors := Some [validationError];
     networkError := None;
     permanent := VBool false |}.

Definition unauthorizedError : GraphQLError :=
  {| errorType := Some "AWSAppSyncClient:Unauthorized";
     err_data := VUndefined; err_path := VUndefined |}.

Definition unauthorized : ErrorT :=
  {| graphQLErrors := None;
     networkError := Some {| ne_graphQLErrors := Some [unauthorizedError] |};
     permanent := VBool false |}.

Definition permanentFailure : ErrorT :=
  {| graphQLErrors := Some [];
     networkError := None;
     permanent := VStr "schema mismatch" |}.

(** A queued action whose mutation document holds no operation. *)
Definition malformed : Action :=
  {| a_type := "SOME_ACTION";
     a_payload := VObj [];
     meta_offline :=
       {| effect :=
            {| eff_mutation := Some {| definitions := [FragmentDef "ItemFields"] |};
               eff_variables := Sample.vars;
               eff_refetchQueries := VUndefined;
               eff_doIt := VBool true |};
          commit := {| d_type := "SOME_ACTION_COMMIT"; d_meta := VNull |};
          rollback := {| d_type := "SOME_ACTION_ROLLBACK"; d_meta := VNull |} |} |}.

(** The operation a client sends for the options of [offlineEffect], when it
    keeps the document and the context it is given. *)
Definition replayOf (options : MutationOptions) : option Operation :=
  match mo_mutation options with
  | Some mutation =>
      Some {| op_query := mutation;
              op_variables := mo_variables options;
              getContext :=
                {| AASContext :=
                     Some {| ctx_mutation := None;
                             ctx_variables := VUndefined;
                             ctx_optimisticResponse := OptValue VUndefined;
                             ctx_refetchQueries := VUndefined;
                             ctx_doIt := mo_context_AASContext_doIt options |} |} |}
  | None => None
  end.

(** The replay of the queued sample action. *)
Definition replayed : Operation :=
  {| op_query := Sample.mutationDoc;
     op_variables := Sample.vars;
     getContext :=
       {| AASContext :=
            Some {| ctx_mutation := None;
                    ctx_variables := VUndefined;
                    ctx_optimisticResponse := OptValue VUndefined;
                    ctx_refetchQueries := VUndefined;
                    ctx_doIt := VBool true |} |} |}.

(** A query for the one scalar field [version] of the root, and a reader
    that answers it from the [ROOT_QUERY] entry of the cache and fails, as
    the cache reader does, when the entry is not there. *)
Definition versionQuery : Operation :=
  {| op_query :=
       {| definitions :=
            [OperationDef {| od_operation := "query"; od_name := Some "GetVersion" |}] |};
     op_variables := VObj [];
     getContext := {| AASContext := None |} |}.

Definition rootReader (cache : value) (_ : DocumentNode) (_ : value)
  : result value :=
  match Sample.lookupField "ROOT_QUERY" cache with
  | Some root => Ok root
  | None =>
      Throw (PlainError "Can't find field version on object (ROOT_QUERY) undefined")
  end.

Definition offlineWorld (slice : option value) : World :=
  {| theStore :=
       {| getState :=
            {| offline := {| online := false |};
               normalizedCache := slice;
               eclipse := VObj [] |};
          dispatched := [] |};
     forwarded := [];
     observed := [] |}.

Definition cachedWorld : World :=
  offlineWorld (Some (VObj [("ROOT_QUERY", VObj [("version", VNum 3)])])).

(** Offline with nothing cached: the slice is not in the state. *)
Definition coldWorld : World := offlineWorld None.

Definition run (operation : Operation) (w : World) : result Teardown * World :=
  request value (fun cache => cache) rootReader Sample.downstream operation w.

(** Documents with two operations. *)
Definition twoQueries : Operation :=
  {| op_query :=
       {| definitions :=
            [OperationDef {| od_operation := "query"; od_name := Some "A" |};
             OperationDef {| od_operation := "query"; od_name := Some "B" |}] |};
     op_variables := VObj [];
     getContext := {| AASContext := None |} |}.

Definition ambiguous : Action :=
  {| a_type := "SOME_ACTION";
     a_payload := VObj [];
     meta_offline :=
       {| effect :=
            {| eff_mutation :=
                 Some {| definitions :=
                           [OperationDef {| od_operation := "mutation";
                                            od_name := Some "A" |};
                            OperationDef {| od_operation := "mutation";
                                            od_name := Some "B" |}] |};
               eff_variables := Sample.vars;
               eff_refetchQueries := VUndefined;
               eff_doIt := VBool true |};
          commit := {| d_type := "SOME_ACTION_COMMIT"; d_meta := VNull |};
          rollback := {| d_type := "SOME_ACTION_ROLLBACK"; d_meta := VNull |} |} |}.

End Edge.

(** * Properties *)

(** ** Values *)

Lemma spread_object (fields : list (string * value)) :
  spread (VObj fields) = VObj fields.
Proof. reflexivity. Qed.

Lemma spread_truthy (v : value) : toBoolean (spread v) = true.
Proof. destruct v; reflexivity. Qed.

Lemma declares_truthy o variables v :
  declares o variables v -> toBoolean v = true.
Proof. intros [v' vars H | f vars r _]; [exact H | apply spread_truthy]. Qed.

(** The slice reducer keeps an object state as it is, whatever the action. *)
Lemma reducer_eclipse_object fields action :
  reducer_eclipse (VObj fields) action = VObj fields.
Proof.
  unfold reducer_eclipse.
  repeat match goal with |- context [if ?b then _ else _] => destruct b end;
    reflexivity.
Qed.

(** ** Documents *)

Lemma mutation_is_not_query (operation : Operation) def :
  getOperationDefinition (op_query operation) = Ok (Some def) ->
  od_operation def = "mutation" ->
  String.eqb (od_operation def) "query" = false
  /\ String.eqb (od_operation def) "mutation" = true.
Proof. intros _ ->. split; reflexivity. Qed.

Ltac eff_unfold :=
  unfold bind, ret, defined, throw, get, modify, call, tryCatch,
    store_dispatch, observer_next, observer_complete, forward_subscribe in *.

(** ** [processMutation] and [request] *)

Section InterceptorProperties.

Context {NormalizedCache : Type}.
Variable defaultNormalizedCacheFactory : value -> NormalizedCache.
Variable readQueryFromStore :
  NormalizedCache -> DocumentNode -> value -> result value.
Variable forward : Operation -> list Event.

(** One run of the subscriber of [request] over these. *)
Local Abbreviation subscribe :=
  (request NormalizedCache defaultNormalizedCacheFactory readQueryFromStore forward).

(** A replayed mutation leaves [processMutation] at its first test. *)
Lemma processMutation_replay operation ctx w :
  AASContext (getContext operation) = Some ctx ->
  toBoolean (ctx_doIt ctx) = true ->
  processMutation operation w = (Ok VUndefined, w).
Proof.
  intros Hctx HdoIt. unfold processMutation. eff_unfold.
  rewrite Hctx. cbn. rewrite HdoIt. reflexivity.
Qed.

(** Any other mutation is dispatched once, as a [SOME_ACTION] whose effect
    takes its fields from the context and has [doIt: true]. *)
Lemma processMutation_enqueue operation ctx data w :
  AASContext (getContext operation) = Some ctx ->
  toBoolean (ctx_doIt ctx) = false ->
  optimisticData (ctx_optimisticResponse ctx) (ctx_variables ctx) data ->
  exists action,
    processMutation operation w =
      (Ok data, {| theStore := dispatch action (theStore w);
                   forwarded := forwarded w;
                   observed := observed w |})
    /\ a_type action = "SOME_ACTION"
    /\ effect (meta_offline action) =
         {| eff_mutation := ctx_mutation ctx;
            eff_variables := ctx_variables ctx;
            eff_refetchQueries := ctx_refetchQueries ctx;
            eff_doIt := VBool true |}.
Proof.
  intros Hctx HdoIt Hdata. unfold processMutation. eff_unfold.
  rewrite Hctx. cbn. rewrite HdoIt.
  destruct Hdata as [o variables v Hdecl | v variables Hfalsy];
    [destruct Hdecl as [v variables Htruthy | f variables r Hf] |].
  - rewrite Htruthy. eexists. split; [reflexivity | split; reflexivity].
  - rewrite Hf. eexists. split; [reflexivity | split; reflexivity].
  - rewrite Hfalsy. eexists. split; [reflexivity | split; reflexivity].
Qed.

(** When the optimistic function throws, so does [processMutation], before
    anything is dispatched. *)
Lemma processMutation_optimistic_throws operation ctx f e w :
  AASContext (getContext operation) = Some ctx ->
  toBoolean (ctx_doIt ctx) = false ->
  ctx_optimisticResponse ctx = OptFunction f ->
  f (ctx_variables ctx) = Throw e ->
  processMutation operation w = (Throw e, w).
Proof.
  intros Hctx HdoIt Hopt Hf. unfold processMutation. eff_unfold.
  rewrite Hctx. cbn. rewrite HdoIt, Hopt, Hf. reflexivity.
Qed.

(** A mutation never takes the offline-query branch of [request]. *)
Lemma request_mutation operation w :
  operationKind operation "mutation" ->
  subscribe operation w =
    match processMutation operation w with
    | (Ok data, w') =>
        if toBoolean data then
          (Ok TeardownNull,
           {| theStore := theStore w'; forwarded := forwarded w';
              observed := (observed w' ++ [Next (dataResult data)]) ++ [Complete] |})
        else
          (Ok (TeardownUnsubscribe operation),
           {| theStore := theStore w'; forwarded := forwarded w' ++ [operation];
              observed := observed w' ++ forward operation |})
    | (Throw e, w') => (Throw e, w')
    end.
Proof.
  intros (def & Hdef & Hkind).
  destruct (mutation_is_not_query operation def Hdef Hkind) as [Hq Hm].
  unfold request, forwardOperation. eff_unfold. rewrite Hdef. cbn.
  rewrite Hq, Hm, andb_false_r.
  destruct (processMutation operation w) as [[data | e] w']; [| reflexivity].
  destruct (toBoolean data); reflexivity.
Qed.

(** C1, as the code has it: for every mutation that is not a replay, one run
    of the interceptor dispatches one [SOME_ACTION] whose effect already has
    [doIt] equal to [true] when it is enqueued, and [offlineEffect] copies
    that flag unchanged into the [AASContext] of the mutation it re-issues;
    the flag is never [false] and nothing flips it. *)
Theorem enqueued_effect_doIt_true operation ctx data w :
  operationKind operation "mutation" ->
  AASContext (getContext operation) = Some ctx ->
  toBoolean (ctx_doIt ctx) = false ->
  optimisticData (ctx_optimisticResponse ctx) (ctx_variables ctx) data ->
  exists action,
    dispatched (theStore (snd (subscribe operation w))) =
      dispatched (theStore w) ++ [action]
    /\ a_type action = "SOME_ACTION"
    /\ eff_doIt (effect (meta_offline action)) = VBool true
    /\ forall (R : Type) (client_mutate : MutationOptions -> R),
         offlineEffect client_mutate (effect (meta_offline action)) action =
           client_mutate
             {| mo_mutation := ctx_mutation ctx;
                mo_variables := ctx_variables ctx;
                mo_refetchQueries := ctx_refetchQueries ctx;
                mo_context_AASContext_doIt := VBool true |}.
Proof.
  intros Hkind Hctx HdoIt Hdata.
  destruct (processMutation_enqueue operation ctx data w Hctx HdoIt Hdata)
    as (action & Hrun & Htype & Heffect).
  exists action. rewrite (request_mutation operation w Hkind), Hrun.
  split; [| split; [exact Htype | split]].
  - destruct (toBoolean data); reflexivity.
  - rewrite Heffect. reflexivity.
  - intros R client_mutate. unfold offlineEffect. rewrite Heffect. reflexivity.
Qed.

(** C2, as the code has it: for every mutation that is not a replay and
    whose [optimisticResponse] is a truthy plain value, or a function that
    returns an object for the variables, one run of the interceptor sends the
    observer exactly one result, [{ data: v }] with [v] that value (for a
    function, the fresh copy with the fields of what it returned), then
    completes, and [forward] is not called. *)
Theorem optimistic_mutation_emits_once operation ctx v w :
  operationKind operation "mutation" ->
  AASContext (getContext operation) = Some ctx ->
  toBoolean (ctx_doIt ctx) = false ->
  (ctx_optimisticResponse ctx = OptValue v /\ toBoolean v = true)
  \/ (exists f fields,
        ctx_optimisticResponse ctx = OptFunction f
        /\ f (ctx_variables ctx) = Ok v
        /\ v = VObj fields) ->
  exists w',
    subscribe operation w = (Ok TeardownNull, w')
    /\ observed w' = observed w ++ [Next (VObj [("data", v)]); Complete]
    /\ forwarded w' = forwarded w.
Proof.
  intros Hkind Hctx HdoIt Hdeclared.
  assert (Hdecl : declares (ctx_optimisticResponse ctx) (ctx_variables ctx) v).
  { destruct Hdeclared as [[-> Htruthy] | (f & fields & -> & Hf & Hobj)].
    - apply declares_value. exact Htruthy.
    - subst v. apply (declares_function f _ (VObj fields)). exact Hf. }
  destruct (processMutation_enqueue operation ctx v w Hctx HdoIt
              (optimistic_declared _ _ _ Hdecl))
    as (action & Hrun & _).
  rewrite (request_mutation operation w Hkind), Hrun.
  rewrite (declares_truthy _ _ _ Hdecl).
  eexists. split; [reflexivity | split; [| reflexivity]].
  cbn. rewrite <- app_assoc. reflexivity.
Qed.


(** C7, as the code has it: for every query run while the store says
    offline, [forward] is not called and the store is left as it was.  With
    [cache] the normalized-cache slice of the state ([{}] when the slice is
    missing or [undefined]): when [readQueryFromStore] returns [data] for the
    query and its variables over [cache], the observer is sent exactly one
    result, [{ data }], and then the completion; when it throws, its
    exception leaves the subscriber, which has sent nothing. *)
Theorem offline_query_served_from_cache operation w cache :
  operationKind operation "query" ->
  online (offline (getState (theStore w))) = false ->
  (normalizedCache (getState (theStore w)) = Some cache /\ cache <> VUndefined)
  \/ ((normalizedCache (getState (theStore w)) = None
       \/ normalizedCache (getState (theStore w)) = Some VUndefined)
      /\ cache = VObj []) ->
  forwarded (snd (subscribe operation w)) = forwarded w
  /\ theStore (snd (subscribe operation w)) = theStore w
  /\ match readQueryFromStore (defaultNormalizedCacheFactory cache)
             (op_query operation) (op_variables operation) with
     | Ok data =>
         subscribe operation w =
           (Ok TeardownNull,
            {| theStore := theStore w;
               forwarded := forwarded w;
               observed := observed w ++ [Next (VObj [("data", data)]); Complete] |})
     | Throw e => subscribe operation w = (Throw e, w)
     end.
Proof.
  intros (def & Hdef & Hkind) Hoffline Hcache.
  assert (Hslice : orDefault (VObj [])
                     (normalizedCache (getState (theStore w))) = cache).
  { destruct Hcache as [[-> Hdefined] | [[-> | ->] ->]]; try reflexivity.
    destruct cache; try reflexivity. contradiction. }
  unfold request, processOfflineQuery. eff_unfold.
  rewrite Hdef. cbn -[orDefault]. rewrite Hoffline, Hkind.
  cbn -[orDefault]. rewrite Hslice.
  destruct (readQueryFromStore _ _ _) as [data | e]; cbn.
  - repeat split. rewrite <- app_assoc. reflexivity.
  - repeat split.
Qed.

(** C8: for every mutation whose context marks it as a replay ([doIt]
    truthy), one run of the interceptor dispatches nothing and leaves the
    store as it was, sends the observer nothing of its own, and calls
    [forward] exactly once, with the operation, relaying its events. *)
Theorem replay_passes_through operation ctx w :
  operationKind operation "mutation" ->
  AASContext (getContext operation) = Some ctx ->
  toBoolean (ctx_doIt ctx) = true ->
  subscribe operation w =
    (Ok (TeardownUnsubscribe operation),
     {| theStore := theStore w;
        forwarded := forwarded w ++ [operation];
        observed := observed w ++ forward operation |}).
Proof.
  intros Hkind Hctx HdoIt.
  rewrite (request_mutation operation w Hkind).
  rewrite (processMutation_replay operation ctx w Hctx HdoIt). reflexivity.
Qed.

End InterceptorProperties.

(** ** [discard] *)

Lemma strictEqStr_spec (v : value) (lit : string) :
  strictEqStr v lit = true <-> v = VStr lit.
Proof.
  destruct v; cbn; try (split; [discriminate | intros [=]]).
  rewrite String.eqb_eq. split; [intros -> | intros [= ->]]; reflexivity.
Qed.

Lemma strictEqStr_other (v : value) (lit : string) :
  v <> VStr lit -> strictEqStr v lit = false.
Proof.
  intros Hne. destruct (strictEqStr v lit) eqn:E; [| reflexivity].
  apply strictEqStr_spec in E. contradiction.
Qed.

(** [find] returns an entry exactly when the list holds a conditional-check
    entry, and the entry it returns is one. *)
Lemma conditionalCheckOf_contains (error : ErrorT) :
  (exists err, In err (default [] (graphQLErrors error))
               /\ isConditionalCheck err = true)
  <-> exists cc, conditionalCheckOf error = Some cc.
Proof.
  unfold conditionalCheckOf. split.
  - intros (err & Hin & Hcc).
    destruct (List.find isConditionalCheck (default [] (graphQLErrors error)))
      as [cc |] eqn:E; [eauto |].
    pose proof (find_none _ _ E err Hin) as Hnot. congruence.
  - intros (cc & Hfind). apply find_some in Hfind. eauto.
Qed.

Lemma conditionalCheckOf_errorType error cc :
  conditionalCheckOf error = Some cc ->
  errorType cc = Some "DynamoDB:ConditionalCheckFailedException".
Proof.
  intros Hfind. apply find_some in Hfind as [_ Hcc].
  unfold isConditionalCheck in Hcc.
  destruct (errorType cc) as [t |]; [| discriminate].
  apply String.eqb_eq in Hcc. congruence.
Qed.

(** With a conditional-check entry and a resolver function, the outcome of
    [discard] is read off what the resolver does on the arguments built for
    it. *)
Lemma discard_conditionalCheck f error action retries cc args :
  conditionalCheckOf error = Some cc ->
  resolverArgsOf cc action retries = Some args ->
  discard (Function f) error action retries =
    match f args with
    | Ok r =>
        if strictEqStr r "DISCARD" then (Ok (VBool true), action)
        else if toBoolean r then (Ok (VBool false), setVariables r action)
        else (Ok (lastResort error retries), action)
    | Throw _ => (Ok (VBool true), action)
    end.
Proof.
  unfold conditionalCheckOf, resolverArgsOf, discard, discard_body.
  intros Hcc Hargs. cbn. rewrite Hcc. eff_unfold.
  destruct (eff_mutation (effect (meta_offline action))) as [mutation |];
    [| discriminate].
  cbn.
  destruct (getOperationDefinition mutation) as [[def |] | e];
    [| discriminate | discriminate].
  injection Hargs as <-. cbn.
  destruct (f _) as [r | e]; [| reflexivity].
  destruct (strictEqStr r "DISCARD"); [reflexivity |].
  destruct (toBoolean r); reflexivity.
Qed.

(** Without a conditional-check entry, with an empty error list and a network
    error list that holds no client error, [discard] comes down to its last
    line. *)
Lemma discard_lastResort fn error action retries :
  default [] (graphQLErrors error) = [] ->
  (networkError error = None
   \/ exists ne errs, networkError error = Some ne
                      /\ ne_graphQLErrors ne = Some errs
                      /\ List.find isAppSyncClientError errs = None) ->
  discard fn error action retries = (Ok (lastResort error retries), action).
Proof.
  intros Hempty Hnet. unfold discard, discard_body. rewrite Hempty. cbn.
  eff_unfold.
  destruct Hnet as [-> | (ne & errs & -> & Herrs & Hnone)].
  - reflexivity.
  - rewrite Herrs. cbn. rewrite Hnone. reflexivity.
Qed.

(** X20: the retry ceiling, where the code reaches it: a transient error
    that is not permanent is retried up to ten times and discarded after. *)
Lemma discard_retry_ceiling fn error action retries :
  default [] (graphQLErrors error) = [] ->
  (networkError error = None
   \/ exists ne errs, networkError error = Some ne
                      /\ ne_graphQLErrors ne = Some errs
                      /\ List.find isAppSyncClientError errs = None) ->
  toBoolean (permanent error) = false ->
  discard fn error action retries = (Ok (VBool (10 <? retries)), action)
  /\ (0 <= retries <= 10 -> fst (discard fn error action retries) = Ok (VBool false))
  /\ (10 < retries -> fst (discard fn error action retries) = Ok (VBool true)).
Proof.
  intros Hempty Hnet Hperm.
  rewrite (discard_lastResort fn error action retries Hempty Hnet).
  unfold lastResort, JS.or. rewrite Hperm. cbn.
  split; [reflexivity | split; intros H].
  - assert ((10 <? retries) = false) as -> by (apply Z.ltb_ge; lia). reflexivity.
  - assert ((10 <? retries) = true) as -> by (apply Z.ltb_lt; lia). reflexivity.
Qed.

(** C4, on the code: a failed fetch (an empty [graphQLErrors], a
    [networkError] that is a plain error without a [graphQLErrors] field, not
    permanent) has no client-protocol entry, yet [discard] does not answer
    [false] for it at any retry count: it throws a [TypeError]. *)
Theorem discard_transient_network_error_throws fn action retries :
  default [] (graphQLErrors Sample.fetchFailed) = []
  /\ toBoolean (permanent Sample.fetchFailed) = false
  /\ discard fn Sample.fetchFailed action retries =
       (Throw (TypeError "Cannot read property 'find' of undefined"), action).
Proof. repeat split. Qed.

(** C5: when the error holds a conditional-check entry and the resolver,
    called on the arguments [discard] builds, returns a truthy value other
    than ['DISCARD'], [discard] writes that value over
    [action.meta.offline.effect.variables], leaves the rest of the action as
    it was, and returns [false]. *)
Theorem resolver_result_replaces_variables f error action retries cc args v :
  conditionalCheckOf error = Some cc ->
  resolverArgsOf cc action retries = Some args ->
  f args = Ok v ->
  toBoolean v = true ->
  v <> VStr "DISCARD" ->
  discard (Function f) error action retries =
    (Ok (VBool false), setVariables v action)
  /\ eff_variables (effect (meta_offline (setVariables v action))) = v.
Proof.
  intros Hcc Hargs Hf Htruthy Hne.
  rewrite (discard_conditionalCheck f error action retries cc args Hcc Hargs).
  rewrite Hf, (strictEqStr_other v "DISCARD" Hne), Htruthy.
  split; reflexivity.
Qed.

(** C6: when the error holds a conditional-check entry and the resolver,
    called on the arguments [discard] builds, throws, [discard] catches the
    exception and returns [true]; nothing is thrown to the caller and the
    action is left as it was. *)
Theorem resolver_exception_discards f error action retries cc args e :
  conditionalCheckOf error = Some cc ->
  resolverArgsOf cc action retries = Some args ->
  f args = Throw e ->
  discard (Function f) error action retries = (Ok (VBool true), action).
Proof.
  intros Hcc Hargs Hf.
  rewrite (discard_conditionalCheck f error action retries cc args Hcc Hargs).
  rewrite Hf. reflexivity.
Qed.

(** A call through a reference touches the object behind it and no other. *)
Lemma discard_ref_run fn error l retries (heap : gmap nat Action) action :
  heap !! l = Some action ->
  discard_ref fn error l retries heap =
    (fst (discard fn error action retries),
     <[l := snd (discard fn error action retries)]> heap).
Proof.
  intros Hl. unfold discard_ref. rewrite Hl.
  destruct (discard fn error action retries). reflexivity.
Qed.

(** The ways out of [discard]: a throw that is not the resolver's, or a
    value, with the action as it was; or [false] with the variables replaced
    by a truthy resolver result. *)
Lemma discard_outcomes fn error action retries :
  (exists e, (forall thrown, e <> Thrown thrown)
             /\ discard fn error action retries = (Throw e, action))
  \/ (exists returned, discard fn error action retries = (Ok returned, action))
  \/ (exists v, toBoolean v = true
                /\ strictEqStr v "DISCARD" = false
                /\ discard fn error action retries =
                     (Ok (VBool false), setVariables v action)).
Proof.
  unfold discard, discard_body. eff_unfold.
  destruct (List.find isConditionalCheck (default [] (graphQLErrors error)))
    as [cc |].
  - destruct (defaultFn fn) as [f | v]; [| right; left; eauto].
    destruct (eff_mutation (effect (meta_offline action))) as [mutation |];
      cbn; [| left; eexists; (split; [| reflexivity]); discriminate].
    unfold getOperationDefinition.
    destruct (checkDocument mutation) as [[] | e] eqn:Hcheck; cbn.
    + destruct (head (operationDefinitions mutation)) as [def |]; cbn;
        [| left; eexists; (split; [| reflexivity]); discriminate].
      destruct (f _) as [r | e]; cbn; [| right; left; eauto].
      destruct (strictEqStr r "DISCARD") eqn:Hd; cbn; [right; left; eauto |].
      destruct (toBoolean r) eqn:Ht; cbn; [| right; left; eauto].
      right; right. exists r. auto.
    + left. exists e. split; [| reflexivity].
      unfold checkDocument in Hcheck.
      destruct (Nat.ltb 1 _); [injection Hcheck as <- |]; discriminate.
  - destruct (negb (Nat.eqb (List.length (default [] (graphQLErrors error))) 0));
      [right; left; eauto |].
    destruct (networkError error) as [ne |]; cbn.
    + destruct (ne_graphQLErrors ne) as [errs |]; cbn;
        [| left; eexists; (split; [| reflexivity]); discriminate].
      destruct (List.find isAppSyncClientError errs); right; left; eauto.
    + destruct (List.find isAppSyncClientError []); right; left; eauto.
Qed.

(** C9, as the code has it: [discard] is not pure, it may rewrite the
    variables of the action it is given.  For a fixed resolver and two calls
    with the same error and retry count, through references to actions with
    the same contents: on two distinct action objects the calls return the
    same result and leave both objects with the same contents; on one and
    the same object they return the same result and leave the same contents
    whenever the first call left the object as it was, and the first call
    changes the object only by returning [false] after writing a truthy
    resolver result over its variables, which is what the second call then
    reads. *)
Theorem discard_twice fn error retries (heap : gmap nat Action) l1 l2 action :
  heap !! l1 = Some action ->
  heap !! l2 = Some action ->
  exists returned1 action1 returned2 action2,
    discard_ref fn error l1 retries heap = (returned1, <[l1 := action1]> heap)
    /\ discard_ref fn error l2 retries (<[l1 := action1]> heap) =
         (returned2, <[l2 := action2]> (<[l1 := action1]> heap))
    /\ (l1 <> l2 -> returned2 = returned1 /\ action2 = action1)
    /\ (l1 = l2 -> action1 = action -> returned2 = returned1 /\ action2 = action1)
    /\ (action1 = action
        \/ exists v, toBoolean v = true
                     /\ v <> VStr "DISCARD"
                     /\ returned1 = Ok (VBool false)
                     /\ action1 = setVariables v action
                     /\ (l1 = l2 ->
                         (returned2, action2) =
                           discard fn error (setVariables v action) retries)).
Proof.
  intros H1 H2.
  destruct (decide (l1 = l2)) as [<- | Hne].
  - exists (fst (discard fn error action retries)),
           (snd (discard fn error action retries)),
           (fst (discard fn error (snd (discard fn error action retries)) retries)),
           (snd (discard fn error (snd (discard fn error action retries)) retries)).
    split; [apply discard_ref_run; exact H1 |].
    split; [apply discard_ref_run; apply lookup_insert_eq |].
    split; [intros Hne; contradiction |].
    split; [intros _ Heq; rewrite !Heq; auto |].
    destruct (discard_outcomes fn error action retries)
      as [(e & _ & Hrun) | [[returned Hrun] | (v & Ht & Hd & Hrun)]];
      rewrite Hrun; cbn; [left; reflexivity | left; reflexivity |].
    right. exists v. repeat split; [exact Ht | |].
    + intros ->. cbn in Hd. discriminate.
    + intros _. destruct (discard fn error (setVariables v action) retries).
      reflexivity.
  - exists (fst (discard fn error action retries)),
           (snd (discard fn error action retries)),
           (fst (discard fn error action retries)),
           (snd (discard fn error action retries)).
    split; [apply discard_ref_run; exact H1 |].
    split; [apply discard_ref_run; rewrite lookup_insert_ne by exact Hne;
            exact H2 |].
    split; [auto |].
    split; [intros Heq; contradiction |].
    destruct (discard_outcomes fn error action retries)
      as [(e & _ & Hrun) | [[returned Hrun] | (v & Ht & Hd & Hrun)]];
      rewrite Hrun; cbn; [left; reflexivity | left; reflexivity |].
    right. exists v. repeat split; [exact Ht | | intros Heq; contradiction].
    intros ->. cbn in Hd. discriminate.
Qed.

(** C10: for every error whose [graphQLErrors] is empty and whose
    [networkError] is present without a [graphQLErrors] field, [discard]
    returns no boolean: it throws the [TypeError] of calling [find] on
    [undefined], whatever the resolver, action and retry count; with
    [networkError] itself absent the default list applies and the last line
    of [discard] answers. *)
Theorem discard_network_error_without_list_throws fn error ne action retries :
  default [] (graphQLErrors error) = [] ->
  networkError error = Some ne ->
  ne_graphQLErrors ne = None ->
  discard fn error action retries =
    (Throw (TypeError "Cannot read property 'find' of undefined"), action)
  /\ discard fn
       {| graphQLErrors := graphQLErrors error;
          networkError := None;
          permanent := permanent error |} action retries =
       (Ok (lastResort error retries), action).
Proof.
  intros Hempty Hnet Hlist. split.
  - unfold discard, discard_body. rewrite Hempty. cbn. eff_unfold.
    rewrite Hnet, Hlist. reflexivity.
  - rewrite discard_lastResort; [reflexivity | exact Hempty | left; reflexivity].
Qed.

(** ** The statements at the sample inputs *)

Lemma enqueued_effect_doIt_true_at_sample :
  exists action,
    dispatched (theStore (snd (Sample.run Sample.optimisticMutation (Sample.world true)))) =
      dispatched (theStore (Sample.world true)) ++ [action]
    /\ a_type action = "SOME_ACTION"
    /\ eff_doIt (effect (meta_offline action)) = VBool true
    /\ forall (R : Type) (client_mutate : MutationOptions -> R),
         offlineEffect client_mutate (effect (meta_offline action)) action =
           client_mutate
             {| mo_mutation := Some Sample.mutationDoc;
                mo_variables := Sample.vars;
                mo_refetchQueries := VUndefined;
                mo_context_AASContext_doIt := VBool true |}.
Proof.
  refine (enqueued_effect_doIt_true (fun cache => cache) Sample.reader
            Sample.downstream Sample.optimisticMutation _ Sample.optimisticItem
            (Sample.world true) _ eq_refl eq_refl _).
  - eexists. split; reflexivity.
  - apply optimistic_declared, declares_value. reflexivity.
Defined.

(** C1 as stated fails: a mutation that is not a replay is enqueued with
    [doIt] equal to [true], not [false]. *)
Lemma enqueued_effect_doIt_is_not_false :
  operationKind Sample.optimisticMutation "mutation"
  /\ (exists ctx, AASContext (getContext Sample.optimisticMutation) = Some ctx
                  /\ toBoolean (ctx_doIt ctx) = false)
  /\ map (fun action => eff_doIt (effect (meta_offline action)))
       (dispatched (theStore (snd (Sample.run Sample.optimisticMutation
                                     (Sample.world true))))) = [VBool true]
  /\ ~ (forall action,
          In action (dispatched (theStore (snd (Sample.run Sample.optimisticMutation
                                                  (Sample.world true))))) ->
          toBoolean (eff_doIt (effect (meta_offline action))) = false).
Proof.
  split; [eexists; split; reflexivity |].
  split; [eexists; split; reflexivity |].
  split; [reflexivity |].
  intros Hall. specialize (Hall _ (or_introl eq_refl)). discriminate Hall.
Qed.

Lemma optimistic_mutation_emits_once_at_sample :
  exists w',
    Sample.run Sample.computedMutation (Sample.world false) = (Ok TeardownNull, w')
    /\ observed w' =
         observed (Sample.world false)
         ++ [Next (VObj [("data", VObj [("updateItem", Sample.vars)])]); Complete]
    /\ forwarded w' = forwarded (Sample.world false).
Proof.
  refine (optimistic_mutation_emits_once (fun cache => cache) Sample.reader
            Sample.downstream Sample.computedMutation _
            (VObj [("updateItem", Sample.vars)]) (Sample.world false)
            _ eq_refl eq_refl _).
  - eexists. split; reflexivity.
  - right. eexists _, _. repeat split.
Defined.

(** C2 as stated fails: a mutation that is not a replay and declares an
    optimistic function that throws sends the observer no result; the
    exception leaves the subscriber. *)
Lemma optimistic_function_that_throws_emits_nothing :
  operationKind (Sample.mutationOp Edge.throwingOptimistic (VBool false)) "mutation"
  /\ (exists ctx f,
        AASContext (getContext (Sample.mutationOp Edge.throwingOptimistic (VBool false)))
          = Some ctx
        /\ toBoolean (ctx_doIt ctx) = false
        /\ ctx_optimisticResponse ctx = OptFunction f)
  /\ fst (Sample.run (Sample.mutationOp Edge.throwingOptimistic (VBool false))
            (Sample.world true))
     = Throw (Thrown (VStr "optimistic failed"))
  /\ observed (snd (Sample.run (Sample.mutationOp Edge.throwingOptimistic (VBool false))
                      (Sample.world true))) = []
  /\ ~ (exists v,
          observed (snd (Sample.run
                           (Sample.mutationOp Edge.throwingOptimistic (VBool false))
                           (Sample.world true)))
          = observed (Sample.world true) ++ [Next (VObj [("data", v)]); Complete]).
Proof.
  split; [eexists; split; reflexivity |].
  split; [eexists _, _; repeat split |].
  split; [reflexivity |].
  split; [reflexivity |].
  intros [v Hv]. discriminate Hv.
Qed.


Lemma offline_query_served_from_cache_at_sample :
  forwarded (snd (Edge.run Edge.versionQuery Edge.cachedWorld))
    = forwarded Edge.cachedWorld
  /\ theStore (snd (Edge.run Edge.versionQuery Edge.cachedWorld))
     = theStore Edge.cachedWorld
  /\ Edge.run Edge.versionQuery Edge.cachedWorld =
       (Ok TeardownNull,
        {| theStore := theStore Edge.cachedWorld;
           forwarded := forwarded Edge.cachedWorld;
           observed :=
             observed Edge.cachedWorld
             ++ [Next (VObj [("data", VObj [("version", VNum 3)])]); Complete] |}).
Proof.
  refine (offline_query_served_from_cache (fun cache => cache) Edge.rootReader
            Sample.downstream Edge.versionQuery Edge.cachedWorld
            (VObj [("ROOT_QUERY", VObj [("version", VNum 3)])])
            _ eq_refl (or_introl (conj eq_refl _))).
  - eexists. split; reflexivity.
  - discriminate.
Defined.

(** C7 as stated fails: an offline query that the cache cannot answer sends
    the observer no result; the reader's exception leaves the subscriber. *)
Lemma offline_query_cache_miss_emits_nothing :
  operationKind Edge.versionQuery "query"
  /\ online (offline (getState (theStore Edge.coldWorld))) = false
  /\ fst (Edge.run Edge.versionQuery Edge.coldWorld)
     = Throw (PlainError "Can't find field version on object (ROOT_QUERY) undefined")
  /\ observed (snd (Edge.run Edge.versionQuery Edge.coldWorld)) = []
  /\ ~ (exists data,
          observed (snd (Edge.run Edge.versionQuery Edge.coldWorld))
          = observed Edge.coldWorld ++ [Next (VObj [("data", data)]); Complete]).
Proof.
  split; [eexists; split; reflexivity |].
  split; [reflexivity |].
  split; [reflexivity |].
  split; [reflexivity |].
  intros [data Hdata]. discriminate Hdata.
Qed.

Lemma replay_passes_through_at_sample :
  Sample.run Sample.replayedMutation (Sample.world true) =
    (Ok (TeardownUnsubscribe Sample.replayedMutation),
     {| theStore := theStore (Sample.world true);
        forwarded := [Sample.replayedMutation];
        observed := Sample.downstream Sample.replayedMutation |}).
Proof.
  refine (replay_passes_through (fun cache => cache) Sample.reader
            Sample.downstream Sample.replayedMutation _ (Sample.world true)
            _ eq_refl eq_refl).
  eexists. split; reflexivity.
Defined.

Lemma resolver_result_replaces_variables_at_sample :
  discard (Sample.resolveWith (VObj [("v", VNum 2)])) Sample.conflict
    Sample.queued 1 =
    (Ok (VBool false), setVariables (VObj [("v", VNum 2)]) Sample.queued)
  /\ eff_variables
       (effect (meta_offline (setVariables (VObj [("v", VNum 2)]) Sample.queued)))
     = VObj [("v", VNum 2)].
Proof.
  refine (resolver_result_replaces_variables (fun _ => Ok (VObj [("v", VNum 2)]))
            Sample.conflict Sample.queued 1 Sample.conditionalCheckError _ _
            eq_refl eq_refl eq_refl eq_refl _).
  discriminate.
Defined.

Lemma resolver_exception_discards_at_sample :
  discard Sample.resolveThrows Sample.conflict Sample.queued 1 =
    (Ok (VBool true), Sample.queued).
Proof.
  refine (resolver_exception_discards
            (fun _ => Throw (Thrown (VStr "resolver failed")))
            Sample.conflict Sample.queued 1 Sample.conditionalCheckError _ _
            eq_refl eq_refl eq_refl).
Defined.

Lemma discard_twice_at_sample :
  exists returned1 action1 returned2 action2,
    discard_ref Sample.bumpOnce Sample.conflict 1 1 Sample.heap
      = (returned1, <[1%nat := action1]> Sample.heap)
    /\ discard_ref Sample.bumpOnce Sample.conflict 2 1
         (<[1%nat := action1]> Sample.heap)
       = (returned2, <[2%nat := action2]> (<[1%nat := action1]> Sample.heap))
    /\ (1%nat <> 2%nat -> returned2 = returned1 /\ action2 = action1)
    /\ (1%nat = 2%nat -> action1 = Sample.queued ->
        returned2 = returned1 /\ action2 = action1)
    /\ (action1 = Sample.queued
        \/ exists v, toBoolean v = true
                     /\ v <> VStr "DISCARD"
                     /\ returned1 = Ok (VBool false)
                     /\ action1 = setVariables v Sample.queued
                     /\ (1%nat = 2%nat ->
                         (returned2, action2) =
                           discard Sample.bumpOnce Sample.conflict
                             (setVariables v Sample.queued) 1)).
Proof.
  refine (discard_twice Sample.bumpOnce Sample.conflict 1 Sample.heap
            1%nat 2%nat Sample.queued _ _).
  - reflexivity.
  - reflexivity.
Defined.

(** C9 as stated fails: the same resolver, error, action object and retry
    count, twice, give [false] and then [true]; the first call has rewritten
    the variables the second call reads. *)
Lemma discard_twice_on_one_reference_differs :
  fst (discard_ref Sample.bumpOnce Sample.conflict 1 1 Sample.heap)
    = Ok (VBool false)
  /\ fst (discard_ref Sample.bumpOnce Sample.conflict 1 1
            (snd (discard_ref Sample.bumpOnce Sample.conflict 1 1 Sample.heap)))
     = Ok (VBool true)
  /\ fst (discard_ref Sample.bumpOnce Sample.conflict 1 1 Sample.heap)
     <> fst (discard_ref Sample.bumpOnce Sample.conflict 1 1
               (snd (discard_ref Sample.bumpOnce Sample.conflict 1 1 Sample.heap)))
  /\ snd (discard_ref Sample.bumpOnce Sample.conflict 1 1 Sample.heap) !! 1%nat
     <> Sample.heap !! 1%nat.
Proof.
  assert (H1 : discard_ref Sample.bumpOnce Sample.conflict 1 1 Sample.heap =
               (Ok (VBool false),
                <[1%nat := setVariables (VObj [("id", VStr "7"); ("v", VNum 2)])
                             Sample.queued]> Sample.heap)).
  { rewrite (discard_ref_run _ _ _ _ _ Sample.queued) by reflexivity.
    reflexivity. }
  rewrite H1. cbn [fst snd].
  assert (H2 : fst (discard_ref Sample.bumpOnce Sample.conflict 1 1
                      (<[1%nat := setVariables (VObj [("id", VStr "7"); ("v", VNum 2)])
                                    Sample.queued]> Sample.heap))
               = Ok (VBool true)).
  { rewrite (discard_ref_run _ _ _ _ _
               (setVariables (VObj [("id", VStr "7"); ("v", VNum 2)]) Sample.queued))
      by apply lookup_insert_eq.
    reflexivity. }
  rewrite H2. repeat split; discriminate.
Qed.

Lemma discard_network_error_without_list_throws_at_sample :
  discard (NotAFunction VUndefined) Sample.fetchFailed Sample.queued 3 =
    (Throw (TypeError "Cannot read property 'find' of undefined"), Sample.queued)
  /\ discard (NotAFunction VUndefined)
       {| graphQLErrors := Some []; networkError := None;
          permanent := VBool false |} Sample.queued 3 =
       (Ok (lastResort Sample.fetchFailed 3), Sample.queued).
Proof.
  refine (discard_network_error_without_list_throws (NotAFunction VUndefined)
            Sample.fetchFailed {| ne_graphQLErrors := None |} Sample.queued 3
            eq_refl eq_refl eq_refl).
Defined.

(** ** The scenarios of the specification *)

Example scenario_A :
  fst (discard (Sample.resolveWith (VStr "DISCARD")) Sample.conflict
         Sample.queued 0) = Ok (VBool true).
Proof. reflexivity. Qed.

Example scenario_D fn :
  fst (discard fn
         {| graphQLErrors :=
              Some [{| errorType := Some "SomeValidationError";
                       err_data := VUndefined; err_path := VUndefined |}];
            networkError := None;
            permanent := VBool false |} Sample.queued 0) = Ok (VBool true).
Proof. reflexivity. Qed.

Example scenario_E fn :
  fst (discard fn
         {| graphQLErrors := Some [];
            networkError :=
              Some {| ne_graphQLErrors :=
                        Some [{| errorType := Some "AWSAppSyncClient:Unauthorized";
                                 err_data := VUndefined;
                                 err_path := VUndefined |}] |};
            permanent := VBool false |} Sample.queued 0) = Ok (VBool true).
Proof. reflexivity. Qed.

Example scenario_F fn :
  fst (discard fn
         {| graphQLErrors := None; networkError := None;
            permanent := VBool false |} Sample.queued 3) = Ok (VBool false).
Proof. reflexivity. Qed.

(** A resolver that returns a falsy value leaves the decision to the last
    line of [discard]. *)
Example resolver_falsy_falls_through :
  fst (discard (Sample.resolveWith VNull) Sample.conflict Sample.queued 11)
    = Ok (VBool true)
  /\ fst (discard (Sample.resolveWith VNull) Sample.conflict Sample.queued 10)
    = Ok (VBool false).
Proof. split; reflexivity. Qed.

(** The retry ceiling holds for an error whose network error carries an
    (empty) error list. *)
Example retry_ceiling_transient :
  fst (discard (NotAFunction VUndefined) Sample.transient Sample.queued 10)
    = Ok (VBool false)
  /\ fst (discard (NotAFunction VUndefined) Sample.transient Sample.queued 11)
    = Ok (VBool true).
Proof. split; reflexivity. Qed.

(** The inputs of the second call matter: on the one action object the first
    call has rewritten, the same resolver decides differently. *)
Example discard_twice_on_one_object :
  discard Sample.bumpOnce Sample.conflict Sample.queued 1 =
    (Ok (VBool false),
     setVariables (VObj [("id", VStr "7"); ("v", VNum 2)]) Sample.queued)
  /\ fst (discard Sample.bumpOnce Sample.conflict
            (snd (discard Sample.bumpOnce Sample.conflict Sample.queued 1)) 1)
     = Ok (VBool true).
Proof. split; reflexivity. Qed.

(** ** The slice reducer *)

(** An action of a kind the reducer does not know leaves the state as it is. *)
Lemma reducer_eclipse_unknown state action :
  state <> VUndefined ->
  a_type action <> "SOME_ACTION" ->
  a_type action <> "SOME_ACTION_COMMIT" ->
  a_type action <> "SOME_ACTION_ROLLBACK" ->
  reducer_eclipse state action = state.
Proof.
  intros Hstate H1 H2 H3. unfold reducer_eclipse.
  apply String.eqb_neq in H1, H2, H3. rewrite H1, H2, H3.
  destruct state; congruence.
Qed.

(** * The rest of the interceptor *)

Lemma spread_falsy (v : value) : toBoolean v = false -> spread v = VObj [].
Proof.
  destruct v as [| | b | n | s | items | fields]; cbn; try reflexivity;
    try discriminate.
  destruct s; [reflexivity | discriminate].
Qed.

Lemma app_one_not_nil {A} (l : list A) (x : A) : l <> l ++ [x].
Proof.
  intros Heq. apply (f_equal (@List.length A)) in Heq.
  rewrite List.length_app in Heq. cbn in Heq. lia.
Qed.

Section InterceptorPaths.

Context {NormalizedCache : Type}.
Variable defaultNormalizedCacheFactory : value -> NormalizedCache.
Variable readQueryFromStore :
  NormalizedCache -> DocumentNode -> value -> result value.
Variable forward : Operation -> list Event.

(** One run of the subscriber of [request] over these. *)
Local Abbreviation subscribe :=
  (request NormalizedCache defaultNormalizedCacheFactory readQueryFromStore forward).

(** The three ways out of [processMutation]. *)
Lemma processMutation_outcomes operation w :
  (exists e, processMutation operation w = (Throw e, w))
  \/ processMutation operation w = (Ok VUndefined, w)
  \/ exists data action,
       enqueueShaped action
       /\ processMutation operation w =
            (Ok data, {| theStore := dispatch action (theStore w);
                         forwarded := forwarded w;
                         observed := observed w |}).
Proof.
  unfold processMutation. eff_unfold.
  destruct (AASContext (getContext operation)) as [ctx |]; cbn;
    [| left; eauto].
  destruct (toBoolean (ctx_doIt ctx)); [right; left; reflexivity |].
  destruct (ctx_optimisticResponse ctx) as [v | f].
  - right; right.
    destruct (toBoolean v); do 2 eexists;
      (split; [| reflexivity]); repeat split.
  - destruct (f (ctx_variables ctx)) as [r | e]; [| left; eauto].
    right; right. do 2 eexists. split; [| reflexivity]. repeat split.
Qed.

(** The five ways out of one run of the subscriber. *)
Lemma request_outcomes operation w :
  (exists e, subscribe operation w = (Throw e, w))
  \/ (exists data,
        subscribe operation w =
          (Ok TeardownNull,
           {| theStore := theStore w; forwarded := forwarded w;
              observed := observed w ++ [Next (dataResult data); Complete] |}))
  \/ (exists data action,
        enqueueShaped action
        /\ subscribe operation w =
             (Ok TeardownNull,
              {| theStore := dispatch action (theStore w);
                 forwarded := forwarded w;
                 observed := observed w ++ [Next (dataResult data); Complete] |}))
  \/ (exists action,
        enqueueShaped action
        /\ subscribe operation w =
             (Ok (TeardownUnsubscribe operation),
              {| theStore := dispatch action (theStore w);
                 forwarded := forwarded w ++ [operation];
                 observed := observed w ++ forward operation |}))
  \/ subscribe operation w =
       (Ok (TeardownUnsubscribe operation),
        {| theStore := theStore w;
           forwarded := forwarded w ++ [operation];
           observed := observed w ++ forward operation |}).
Proof.
  unfold request, processOfflineQuery, forwardOperation. eff_unfold.
  destruct (getOperationDefinition (op_query operation)) as [[def |] | e]; cbn;
    [| left; eauto | left; eauto].
  destruct (negb (online (offline (getState (theStore w))))
            && String.eqb (od_operation def) "query").
  - destruct (readQueryFromStore _ _ _) as [data | e]; cbn; [| left; eauto].
    right; left. exists data. rewrite <- app_assoc. reflexivity.
  - destruct (String.eqb (od_operation def) "mutation");
      [| right; right; right; right; reflexivity].
    destruct (processMutation_outcomes operation w)
      as [[e ->] | [-> | (data & action & Hshape & ->)]]; cbn.
    + left; eauto.
    + right; right; right; right; reflexivity.
    + destruct (toBoolean data); cbn.
      * right; right; left. exists data, action. split; [exact Hshape |].
        rewrite <- app_assoc. reflexivity.
      * right; right; right; left. exists action. split; [exact Hshape |].
        reflexivity.
Qed.

(** X1: one run of the subscriber takes exactly one path: it answers by itself
    with a single result and the completion and calls [forward] not at all;
    or it calls [forward] once with the operation and relays its events,
    sending nothing of its own; or it throws, having sent nothing, called
    nothing and left the store as it was. *)
Theorem request_takes_one_path operation w :
  (exists data,
     fst (subscribe operation w) = Ok TeardownNull
     /\ observed (snd (subscribe operation w)) =
          observed w ++ [Next (dataResult data); Complete]
     /\ forwarded (snd (subscribe operation w)) = forwarded w)
  \/ (fst (subscribe operation w) = Ok (TeardownUnsubscribe operation)
      /\ observed (snd (subscribe operation w)) = observed w ++ forward operation
      /\ forwarded (snd (subscribe operation w)) = forwarded w ++ [operation])
  \/ (exists e,
        fst (subscribe operation w) = Throw e
        /\ snd (subscribe operation w) = w).
Proof.
  destruct (request_outcomes operation w)
    as [[e ->] | [[data ->] | [(data & action & _ & ->)
       | [(action & _ & ->) | ->]]]]; cbn.
  - right; right. eauto.
  - left. eauto.
  - left. eauto.
  - right; left. auto.
  - right; left. auto.
Qed.

(** X2: whatever the operation, one run of the subscriber dispatches at most one
    action, and the action it dispatches is a [SOME_ACTION] with an empty
    payload, an effect whose [doIt] is [true], and the commit and rollback
    descriptors. *)
Theorem request_dispatches_at_most_once operation w :
  dispatched (theStore (snd (subscribe operation w))) = dispatched (theStore w)
  \/ exists action,
       dispatched (theStore (snd (subscribe operation w))) =
         dispatched (theStore w) ++ [action]
       /\ enqueueShaped action.
Proof.
  destruct (request_outcomes operation w)
    as [[e ->] | [[data ->] | [(data & action & Hshape & ->)
       | [(action & Hshape & ->) | ->]]]]; cbn; eauto.
Qed.

(** X3: an operation that [getOperationDefinition] does not return as a
    mutation never reaches the store: whatever the connectivity, and whether
    the run returns or throws (a refused or empty document included), the
    store is left as it was. *)
Theorem request_only_mutations_dispatch operation w :
  (forall def,
     getOperationDefinition (op_query operation) = Ok (Some def) ->
     od_operation def <> "mutation") ->
  theStore (snd (subscribe operation w)) = theStore w.
Proof.
  intros Hkind.
  unfold request, processOfflineQuery, forwardOperation. eff_unfold.
  destruct (getOperationDefinition (op_query operation)) as [[def |] | e];
    cbn; [| reflexivity | reflexivity].
  specialize (Hkind def eq_refl). apply String.eqb_neq in Hkind. rewrite Hkind.
  destruct (negb (online (offline (getState (theStore w))))
            && String.eqb (od_operation def) "query"); [| reflexivity].
  destruct (readQueryFromStore _ _ _); reflexivity.
Qed.

(** X4: an operation that [getOperationDefinition] returns as neither a
    mutation nor a query made offline (an online query, a subscription at any
    time) goes to [forward] once, with its events relayed and the store
    untouched. *)
Theorem request_forwards_the_rest operation def w :
  getOperationDefinition (op_query operation) = Ok (Some def) ->
  od_operation def <> "mutation" ->
  online (offline (getState (theStore w))) = true \/ od_operation def <> "query" ->
  subscribe operation w =
    (Ok (TeardownUnsubscribe operation),
     {| theStore := theStore w;
        forwarded := forwarded w ++ [operation];
        observed := observed w ++ forward operation |}).
Proof.
  intros Hdef Hkind Hpath. apply String.eqb_neq in Hkind.
  unfold request, forwardOperation. eff_unfold. rewrite Hdef. cbn.
  rewrite Hkind.
  assert (negb (online (offline (getState (theStore w))))
          && String.eqb (od_operation def) "query" = false) as ->.
  { destruct Hpath as [-> | Hq]; [reflexivity |].
    apply String.eqb_neq in Hq. rewrite Hq. apply andb_false_r. }
  reflexivity.
Qed.

(** A document with more than one operation is refused by the check of
    [getOperationDefinition]: the subscriber throws its error before it does
    anything, online or offline. *)
Lemma request_ambiguous_document_throws operation w :
  (1 < List.length (operationDefinitions (op_query operation)))%nat ->
  subscribe operation w = (Throw (PlainError "Ambiguous GraphQL document"), w).
Proof.
  intros Hmany. unfold request, getOperationDefinition, checkDocument.
  eff_unfold.
  assert (Nat.ltb 1 (List.length (operationDefinitions (op_query operation)))
          = true) as -> by (apply Nat.ltb_lt; lia).
  reflexivity.
Qed.

(** X5: a document without an operation definition makes the subscriber throw a
    [TypeError] before it does anything. *)
Theorem request_without_operation_throws operation w :
  getOperationDefinition (op_query operation) = Ok None ->
  exists msg, subscribe operation w = (Throw (TypeError msg), w).
Proof.
  intros Hdef. unfold request. eff_unfold. rewrite Hdef. eexists. reflexivity.
Qed.

(** X6: a mutation whose context has no [AASContext] makes the subscriber throw
    a [TypeError]: nothing is dispatched and [forward] is not called. *)
Theorem request_mutation_without_context_throws operation w :
  operationKind operation "mutation" ->
  AASContext (getContext operation) = None ->
  exists msg, subscribe operation w = (Throw (TypeError msg), w).
Proof.
  intros Hkind Hctx. rewrite (request_mutation _ _ _ operation w Hkind).
  unfold processMutation. eff_unfold. rewrite Hctx. eexists. reflexivity.
Qed.

(** X7: when the optimistic function of a mutation throws, its exception leaves
    the subscriber before the effect is enqueued: nothing is dispatched,
    nothing is sent and [forward] is not called. *)
Theorem request_optimistic_function_throws operation ctx f e w :
  operationKind operation "mutation" ->
  AASContext (getContext operation) = Some ctx ->
  toBoolean (ctx_doIt ctx) = false ->
  ctx_optimisticResponse ctx = OptFunction f ->
  f (ctx_variables ctx) = Throw e ->
  subscribe operation w = (Throw e, w).
Proof.
  intros Hkind Hctx HdoIt Hopt Hf.
  rewrite (request_mutation _ _ _ operation w Hkind).
  rewrite (processMutation_optimistic_throws operation ctx f e w Hctx HdoIt Hopt Hf).
  reflexivity.
Qed.

(** X8: an optimistic function always yields an optimistic answer: when it
    returns a falsy value the subscriber still answers by itself, with the
    empty object as data, and does not call [forward], where the same falsy
    value given as a plain [optimisticResponse] sends the mutation on. *)
Theorem request_optimistic_function_falsy operation ctx f r w :
  operationKind operation "mutation" ->
  AASContext (getContext operation) = Some ctx ->
  toBoolean (ctx_doIt ctx) = false ->
  ctx_optimisticResponse ctx = OptFunction f ->
  f (ctx_variables ctx) = Ok r ->
  toBoolean r = false ->
  exists w',
    subscribe operation w = (Ok TeardownNull, w')
    /\ observed w' = observed w ++ [Next (dataResult (VObj [])); Complete]
    /\ forwarded w' = forwarded w.
Proof.
  intros Hkind Hctx HdoIt Hopt Hf Hfalsy.
  assert (Hdata : optimisticData (ctx_optimisticResponse ctx)
                    (ctx_variables ctx) (VObj [])).
  { rewrite Hopt, <- (spread_falsy r Hfalsy).
    apply optimistic_declared, declares_function. exact Hf. }
  destruct (processMutation_enqueue operation ctx (VObj []) w Hctx HdoIt Hdata)
    as (action & Hrun & _).
  rewrite (request_mutation _ _ _ operation w Hkind), Hrun. cbn.
  eexists. split; [reflexivity | split; [| reflexivity]].
  cbn. rewrite <- app_assoc. reflexivity.
Qed.

Lemma processMutation_withOnline operation b w :
  processMutation operation (withOnline b w) =
    (fst (processMutation operation w),
     withOnline b (snd (processMutation operation w))).
Proof.
  unfold processMutation. eff_unfold.
  destruct (AASContext (getContext operation)) as [ctx |]; cbn; [| reflexivity].
  destruct (toBoolean (ctx_doIt ctx)); [reflexivity |].
  destruct (ctx_optimisticResponse ctx) as [v | f].
  - destruct (toBoolean v); reflexivity.
  - destruct (f (ctx_variables ctx)); reflexivity.
Qed.

Lemma request_withOnline operation b w :
  operationKind operation "mutation" ->
  subscribe operation (withOnline b w) =
    (fst (subscribe operation w), withOnline b (snd (subscribe operation w))).
Proof.
  intros Hkind.
  rewrite (request_mutation _ _ _ operation (withOnline b w) Hkind).
  rewrite (request_mutation _ _ _ operation w Hkind).
  rewrite processMutation_withOnline.
  destruct (processMutation operation w) as [[data | e] w']; cbn;
    [| reflexivity].
  destruct (toBoolean data); reflexivity.
Qed.

(** X9: connectivity plays no part for a mutation: run offline or online, it has
    the same outcome, dispatches the same actions, sends the observer the
    same events and makes the same calls to [forward]; an offline mutation
    without an optimistic response is still sent on. *)
Theorem request_mutation_ignores_connectivity operation b w :
  operationKind operation "mutation" ->
  fst (subscribe operation (withOnline b w)) = fst (subscribe operation w)
  /\ dispatched (theStore (snd (subscribe operation (withOnline b w)))) =
       dispatched (theStore (snd (subscribe operation w)))
  /\ observed (snd (subscribe operation (withOnline b w))) =
       observed (snd (subscribe operation w))
  /\ forwarded (snd (subscribe operation (withOnline b w))) =
       forwarded (snd (subscribe operation w)).
Proof.
  intros Hkind. rewrite (request_withOnline operation b w Hkind).
  repeat split.
Qed.

(** X10: what the interceptor enqueues, it lets through on replay: for an action
    dispatched by a run of the subscriber, a mutation that comes back with
    the [doIt] that [offlineEffect] puts in the context for the action's
    effect is not enqueued again; it goes to [forward] once and the store is
    left as it was. *)
Theorem enqueued_effect_replays_once operation w action replay rctx w2 :
  dispatched (theStore (snd (subscribe operation w))) =
    dispatched (theStore w) ++ [action] ->
  operationKind replay "mutation" ->
  AASContext (getContext replay) = Some rctx ->
  ctx_doIt rctx =
    offlineEffect mo_context_AASContext_doIt (effect (meta_offline action)) action ->
  subscribe replay w2 =
    (Ok (TeardownUnsubscribe replay),
     {| theStore := theStore w2;
        forwarded := forwarded w2 ++ [replay];
        observed := observed w2 ++ forward replay |}).
Proof.
  intros Hdisp Hkind Hctx HdoIt.
  assert (Hshape : enqueueShaped action).
  { destruct (request_outcomes operation w)
      as [[e Hrun] | [[data Hrun] | [(data & a & Hshape & Hrun)
         | [(a & Hshape & Hrun) | Hrun]]]];
      rewrite Hrun in Hdisp; cbn in Hdisp;
      try (exfalso; exact (app_one_not_nil _ _ Hdisp));
      apply app_inv_head in Hdisp; injection Hdisp as ->; exact Hshape. }
  destruct Hshape as (_ & _ & Hflag & _).
  unfold offlineEffect in HdoIt. cbn in HdoIt. rewrite Hflag in HdoIt.
  rewrite (request_mutation _ _ _ replay w2 Hkind).
  rewrite (processMutation_replay replay rctx w2 Hctx)
    by (rewrite HdoIt; reflexivity).
  reflexivity.
Qed.

End InterceptorPaths.

(** * The rest of [discard] *)

Lemma find_none_of {A} (p : A -> bool) (l : list A) :
  (forall x, In x l -> p x = false) -> List.find p l = None.
Proof.
  intros Hall. destruct (List.find p l) as [x |] eqn:E; [| reflexivity].
  apply find_some in E as [Hin Hp]. rewrite (Hall x Hin) in Hp. discriminate.
Qed.

Lemma find_some_of {A} (p : A -> bool) (l : list A) (x : A) :
  In x l -> p x = true -> exists y, List.find p l = Some y.
Proof.
  intros Hin Hp. destruct (List.find p l) as [y |] eqn:E; [eauto |].
  rewrite (find_none _ _ E x Hin) in Hp. discriminate.
Qed.

(** X11: [discard] writes to nothing but the variables of the queued effect, and
    only on the way that returns [false] after a truthy resolver result:
    in every other case, a throw included, the action is left as it was, and
    the type, payload, mutation, refetch queries, flag and descriptors of
    the action are never touched. *)
Theorem discard_touches_only_variables fn error action retries :
  (snd (discard fn error action retries) = action
   \/ exists v, toBoolean v = true
                /\ v <> VStr "DISCARD"
                /\ discard fn error action retries =
                     (Ok (VBool false), setVariables v action))
  /\ a_type (snd (discard fn error action retries)) = a_type action
  /\ a_payload (snd (discard fn error action retries)) = a_payload action
  /\ eff_mutation (effect (meta_offline (snd (discard fn error action retries))))
     = eff_mutation (effect (meta_offline action))
  /\ eff_refetchQueries (effect (meta_offline (snd (discard fn error action retries))))
     = eff_refetchQueries (effect (meta_offline action))
  /\ eff_doIt (effect (meta_offline (snd (discard fn error action retries))))
     = eff_doIt (effect (meta_offline action))
  /\ commit (meta_offline (snd (discard fn error action retries)))
     = commit (meta_offline action)
  /\ rollback (meta_offline (snd (discard fn error action retries)))
     = rollback (meta_offline action).
Proof.
  destruct (discard_outcomes fn error action retries)
    as [(e & _ & ->) | [[returned ->] | (v & Ht & Hd & ->)]]; cbn.
  - repeat split; auto.
  - repeat split; auto.
  - split; [| repeat split].
    right. exists v. repeat split; [exact Ht |].
    intros ->. cbn in Hd. discriminate.
Qed.


(** X13: for an error whose [graphQLErrors] is absent or a list and whose
    [networkError] is absent or an object, [discard] throws in exactly two
    situations: a conditional-check entry with a callable [fn] and a queued
    mutation for which no resolver arguments can be built (the mutation is
    missing, or its document holds no operation or more than one; it is read
    before the [try]); or no conditional-check entry, an empty error list and
    a network error without an error list.  Everywhere else it returns. *)
Theorem discard_throws_iff fn error action retries :
  (exists e, fst (discard fn error action retries) = Throw e)
  <-> (exists cc, conditionalCheckOf error = Some cc
                  /\ callable fn
                  /\ resolverArgsOf cc action retries = None)
      \/ (default [] (graphQLErrors error) = []
          /\ exists ne, networkError error = Some ne
                        /\ ne_graphQLErrors ne = None).
Proof.
  unfold conditionalCheckOf, callable, resolverArgsOf, discard, discard_body.
  eff_unfold.
  destruct (List.find isConditionalCheck (default [] (graphQLErrors error)))
    as [cc |] eqn:Hfind.
  - assert (Hnonempty : default [] (graphQLErrors error) <> []).
    { intros Heq. rewrite Heq in Hfind. discriminate. }
    destruct (defaultFn fn) as [f | v].
    + destruct (eff_mutation (effect (meta_offline action))) as [mutation |];
        cbn.
      * destruct (getOperationDefinition mutation) as [[def |] | e0]; cbn.
        -- split.
           ++ intros [e He].
              destruct (f _) as [r | e']; cbn in He; [| discriminate].
              destruct (strictEqStr r "DISCARD"); cbn in He; [discriminate |].
              destruct (toBoolean r); discriminate.
           ++ intros [(cc' & _ & _ & Habs) | (Hempty & _)];
                [discriminate | contradiction].
        -- split; [| eauto]. intros _. left. exists cc. eauto.
        -- split; [| eauto]. intros _. left. exists cc. eauto.
      * split; [| eauto]. intros _. left. exists cc. eauto.
    + split.
      * intros [e He]. discriminate.
      * intros [(cc' & _ & (f & Habs) & _) | (Hempty & _)];
          [discriminate | contradiction].
  - destruct (default [] (graphQLErrors error)) as [| g gs] eqn:Hgs; cbn.
    + destruct (networkError error) as [ne |]; cbn.
      * destruct (ne_graphQLErrors ne) as [errs |] eqn:Herrs; cbn.
        -- split.
           ++ intros [e He].
              destruct (List.find isAppSyncClientError errs); discriminate.
           ++ intros [(cc' & Habs & _) | (_ & ne' & [= <-] & Habs)];
                [discriminate | congruence].
        -- split; [| eauto]. intros _. right. eauto.
      * split.
        -- intros [e He]. discriminate.
        -- intros [(cc' & Habs & _) | (_ & ne' & Habs & _)]; discriminate.
    + split.
      * intros [e He]. discriminate.
      * intros [(cc' & Habs & _) | (Habs & _)]; discriminate.
Qed.

(** A queued mutation whose document holds two operations is refused by the
    document check, outside the [try]: with a conditional-check entry and a
    resolver, [discard] throws the check's error and the resolver is not
    consulted. *)
Example discard_ambiguous_mutation_throws :
  discard Sample.bumpOnce Sample.conflict Edge.ambiguous 1 =
    (Throw (PlainError "Ambiguous GraphQL document"), Edge.ambiguous)
  /\ resolverArgsOf Sample.conditionalCheckError Edge.ambiguous 1 = None.
Proof. split; reflexivity. Qed.

(** X14: a non-empty [graphQLErrors] list without a conditional-check entry is
    discarded at once: [discard] returns [true] whatever the resolver, the
    retry count, the permanent flag and the network error, and leaves the
    action as it was. *)
Theorem discard_graphql_errors fn error errs action retries :
  graphQLErrors error = Some errs ->
  errs <> [] ->
  (forall err, In err errs ->
     errorType err <> Some "DynamoDB:ConditionalCheckFailedException") ->
  discard fn error action retries = (Ok (VBool true), action).
Proof.
  intros Herrs Hnonempty Hnone.
  unfold discard, discard_body. rewrite Herrs. cbn.
  rewrite find_none_of.
  - destruct errs; [contradiction | reflexivity].
  - intros err Hin. specialize (Hnone err Hin). unfold isConditionalCheck.
    destruct (errorType err) as [t |]; [| reflexivity].
    apply String.eqb_neq. congruence.
Qed.

(** X15: with no [graphQLErrors] of its own, an error whose network error lists
    an entry of a type starting with [AWSAppSyncClient:] is discarded at
    once: [discard] returns [true] whatever the resolver, the retry count and
    the permanent flag. *)
Theorem discard_client_error fn error ne errs err t action retries :
  default [] (graphQLErrors error) = [] ->
  networkError error = Some ne ->
  ne_graphQLErrors ne = Some errs ->
  In err errs ->
  errorType err = Some t ->
  String.prefix "AWSAppSyncClient:" t = true ->
  discard fn error action retries = (Ok (VBool true), action).
Proof.
  intros Hempty Hnet Herrs Hin Htype Hprefix.
  assert (Hclient : isAppSyncClientError err = true).
  { unfold isAppSyncClientError. rewrite Htype, Hprefix.
    destruct t; [discriminate Hprefix | reflexivity]. }
  destruct (find_some_of _ _ _ Hin Hclient) as [found Hfound].
  unfold discard, discard_body. rewrite Hempty. cbn. eff_unfold.
  rewrite Hnet, Herrs. cbn. rewrite Hfound. reflexivity.
Qed.

(** X16: when the resolver answers ['DISCARD'] to a conditional-check entry,
    [discard] returns [true] and leaves the action as it was. *)
Theorem resolver_discard_answer f error action retries cc args :
  conditionalCheckOf error = Some cc ->
  resolverArgsOf cc action retries = Some args ->
  f args = Ok (VStr "DISCARD") ->
  discard (Function f) error action retries = (Ok (VBool true), action).
Proof.
  intros Hcc Hargs Hf.
  rewrite (discard_conditionalCheck f error action retries cc args Hcc Hargs).
  rewrite Hf. reflexivity.
Qed.

(** X17: when the resolver answers a conditional-check entry with a falsy value,
    nothing is decided by it: [discard] leaves the action as it was and
    answers from its last line, the permanent flag or the retry ceiling. *)
Theorem resolver_falsy_leaves_ceiling f error action retries cc args r :
  conditionalCheckOf error = Some cc ->
  resolverArgsOf cc action retries = Some args ->
  f args = Ok r ->
  toBoolean r = false ->
  discard (Function f) error action retries =
    (Ok (if toBoolean (permanent error) then permanent error
         else VBool (10 <? retries)), action).
Proof.
  intros Hcc Hargs Hf Hfalsy.
  rewrite (discard_conditionalCheck f error action retries cc args Hcc Hargs).
  rewrite Hf, Hfalsy.
  assert (strictEqStr r "DISCARD" = false) as ->.
  { destruct r; try reflexivity. cbn in *.
    destruct s; [reflexivity | discriminate]. }
  reflexivity.
Qed.

(** X18: without a resolver a conditional-check entry is not discarded by itself:
    a [fn] that is a value other than a function skips the resolution
    whatever the action, and the default resolver of an absent [fn] returns
    [null] once the queued mutation has been read; either way [discard]
    answers from its last line, even when the list holds other errors. *)
Theorem discard_conditionalCheck_without_resolver v error action retries cc :
  conditionalCheckOf error = Some cc ->
  v <> VUndefined \/ (exists args, resolverArgsOf cc action retries = Some args) ->
  discard (NotAFunction v) error action retries =
    (Ok (if toBoolean (permanent error) then permanent error
         else VBool (10 <? retries)), action).
Proof.
  intros Hcc [Hv | [args Hargs]].
  - unfold conditionalCheckOf in Hcc. unfold discard, discard_body.
    rewrite Hcc. destruct v; try reflexivity. contradiction.
  - destruct v;
      try (unfold conditionalCheckOf in Hcc; unfold discard, discard_body;
           rewrite Hcc; reflexivity).
    change (discard (NotAFunction VUndefined) error action retries)
      with (discard (Function (fun _ => Ok VNull)) error action retries).
    rewrite (discard_conditionalCheck _ error action retries cc args Hcc Hargs).
    reflexivity.
Qed.

(** X19: a permanent error that reaches the last line is discarded at the first
    attempt: what [discard] returns is the truthy [permanent] value itself,
    whatever the retry count. *)
Theorem discard_permanent fn error action retries :
  default [] (graphQLErrors error) = [] ->
  (networkError error = None
   \/ exists ne errs, networkError error = Some ne
                      /\ ne_graphQLErrors ne = Some errs
                      /\ List.find isAppSyncClientError errs = None) ->
  toBoolean (permanent error) = true ->
  discard fn error action retries = (Ok (permanent error), action).
Proof.
  intros Hempty Hnet Hperm.
  rewrite (discard_lastResort fn error action retries Hempty Hnet).
  unfold lastResort, JS.or. rewrite Hperm. reflexivity.
Qed.

(** * The slice reducer over a run of actions *)

(** X21: over an object state the reducer changes nothing, whatever actions come
    and in whatever order; from the [undefined] state of a store that has
    not started, the first action, of any type, gives the empty object. *)
Theorem reducer_eclipse_run actions :
  (forall fields,
     fold_left reducer_eclipse actions (VObj fields) = VObj fields)
  /\ (forall action,
        fold_left reducer_eclipse (action :: actions) VUndefined = VObj []).
Proof.
  assert (Hobj : forall fields,
             fold_left reducer_eclipse actions (VObj fields) = VObj fields).
  { induction actions as [| a rest IH]; intros fields; [reflexivity |].
    cbn [fold_left]. rewrite reducer_eclipse_object. apply IH. }
  split; [exact Hobj |].
  intros action. cbn [fold_left].
  assert (reducer_eclipse VUndefined action = VObj []) as ->.
  { unfold reducer_eclipse.
    repeat match goal with |- context [if ?b then _ else _] => destruct b end;
      reflexivity. }
  apply Hobj.
Qed.

(** * The further statements at concrete inputs *)

Lemma request_only_mutations_dispatch_at_edge :
  theStore (snd (Sample.run Edge.subscriptionOp (Sample.world false))) =
    theStore (Sample.world false).
Proof.
  refine (request_only_mutations_dispatch (fun cache => cache) Sample.reader
            Sample.downstream Edge.subscriptionOp (Sample.world false) _).
  intros def [= <-]. discriminate.
Defined.

Lemma request_forwards_the_rest_at_sample :
  Sample.run Sample.queryOp (Sample.world true) =
    (Ok (TeardownUnsubscribe Sample.queryOp),
     {| theStore := theStore (Sample.world true);
        forwarded := [Sample.queryOp];
        observed := Sample.downstream Sample.queryOp |}).
Proof.
  refine (request_forwards_the_rest (fun cache => cache) Sample.reader
            Sample.downstream Sample.queryOp _ (Sample.world true)
            eq_refl _ (or_introl eq_refl)).
  discriminate.
Defined.

Lemma request_without_operation_throws_at_edge :
  exists msg,
    Sample.run Edge.fragmentsOnly (Sample.world false) =
      (Throw (TypeError msg), Sample.world false).
Proof.
  refine (request_without_operation_throws (fun cache => cache) Sample.reader
            Sample.downstream Edge.fragmentsOnly (Sample.world false) eq_refl).
Defined.

Lemma request_mutation_without_context_throws_at_edge :
  exists msg,
    Sample.run Edge.bareMutation (Sample.world true) =
      (Throw (TypeError msg), Sample.world true).
Proof.
  refine (request_mutation_without_context_throws (fun cache => cache)
            Sample.reader Sample.downstream Edge.bareMutation
            (Sample.world true) _ eq_refl).
  eexists. split; reflexivity.
Defined.

Lemma request_optimistic_function_throws_at_edge :
  Sample.run (Sample.mutationOp Edge.throwingOptimistic (VBool false))
    (Sample.world true) =
    (Throw (Thrown (VStr "optimistic failed")), Sample.world true).
Proof.
  refine (request_optimistic_function_throws (fun cache => cache)
            Sample.reader Sample.downstream
            (Sample.mutationOp Edge.throwingOptimistic (VBool false)) _ _ _
            (Sample.world true) _ eq_refl eq_refl eq_refl eq_refl).
  eexists. split; reflexivity.
Defined.

Lemma request_optimistic_function_falsy_at_edge :
  exists w',
    Sample.run (Sample.mutationOp Edge.nullOptimistic (VBool false))
      (Sample.world true) = (Ok TeardownNull, w')
    /\ observed w' =
         observed (Sample.world true) ++ [Next (dataResult (VObj [])); Complete]
    /\ forwarded w' = forwarded (Sample.world true).
Proof.
  refine (request_optimistic_function_falsy (fun cache => cache)
            Sample.reader Sample.downstream
            (Sample.mutationOp Edge.nullOptimistic (VBool false)) _ _ VNull
            (Sample.world true) _ eq_refl eq_refl eq_refl eq_refl eq_refl).
  eexists. split; reflexivity.
Defined.

Lemma request_mutation_ignores_connectivity_at_sample :
  fst (Sample.run Sample.plainMutation (withOnline false (Sample.world true))) =
    fst (Sample.run Sample.plainMutation (Sample.world true))
  /\ dispatched (theStore (snd (Sample.run Sample.plainMutation
                                  (withOnline false (Sample.world true))))) =
       dispatched (theStore (snd (Sample.run Sample.plainMutation (Sample.world true))))
  /\ observed (snd (Sample.run Sample.plainMutation
                      (withOnline false (Sample.world true)))) =
       observed (snd (Sample.run Sample.plainMutation (Sample.world true)))
  /\ forwarded (snd (Sample.run Sample.plainMutation
                       (withOnline false (Sample.world true)))) =
       forwarded (snd (Sample.run Sample.plainMutation (Sample.world true))).
Proof.
  refine (request_mutation_ignores_connectivity (fun cache => cache)
            Sample.reader Sample.downstream Sample.plainMutation false
            (Sample.world true) _).
  eexists. split; reflexivity.
Defined.

Lemma enqueued_effect_replays_once_at_sample :
  Edge.replayOf (offlineEffect (fun options => options)
                   (effect (meta_offline Sample.queued)) Sample.queued)
    = Some Edge.replayed
  /\ dispatched (theStore (snd (Sample.run Sample.plainMutation (Sample.world true))))
     = [Sample.queued]
  /\ Sample.run Edge.replayed (Sample.world true) =
       (Ok (TeardownUnsubscribe Edge.replayed),
        {| theStore := theStore (Sample.world true);
           forwarded := forwarded (Sample.world true) ++ [Edge.replayed];
           observed := observed (Sample.world true)
                       ++ Sample.downstream Edge.replayed |}).
Proof.
  split; [reflexivity | split; [reflexivity |]].
  refine (enqueued_effect_replays_once (fun cache => cache) Sample.reader
            Sample.downstream Sample.plainMutation (Sample.world true)
            Sample.queued Edge.replayed
            {| ctx_mutation := None;
               ctx_variables := VUndefined;
               ctx_optimisticResponse := OptValue VUndefined;
               ctx_refetchQueries := VUndefined;
               ctx_doIt := VBool true |}
            (Sample.world true) eq_refl _ eq_refl eq_refl).
  eexists. split; reflexivity.
Defined.

Lemma discard_retry_ceiling_at_sample :
  discard (NotAFunction VUndefined) Sample.transient Sample.queued 10 =
    (Ok (VBool (10 <? 10)), Sample.queued)
  /\ (0 <= 10 <= 10 ->
      fst (discard (NotAFunction VUndefined) Sample.transient Sample.queued 10)
      = Ok (VBool false))
  /\ (10 < 10 ->
      fst (discard (NotAFunction VUndefined) Sample.transient Sample.queued 10)
      = Ok (VBool true)).
Proof.
  refine (discard_retry_ceiling (NotAFunction VUndefined) Sample.transient
            Sample.queued 10 eq_refl _ eq_refl).
  right. exists {| ne_graphQLErrors := Some [] |}, []. repeat split.
Defined.

Lemma discard_graphql_errors_at_edge :
  discard Sample.bumpOnce Edge.invalid Sample.queued 0 =
    (Ok (VBool true), Sample.queued).
Proof.
  refine (discard_graphql_errors Sample.bumpOnce Edge.invalid
            [Edge.validationError] Sample.queued 0 eq_refl _ _).
  - discriminate.
  - intros err [<- | []]. discriminate.
Defined.

Lemma discard_client_error_at_edge :
  discard Sample.bumpOnce Edge.unauthorized Sample.queued 0 =
    (Ok (VBool true), Sample.queued).
Proof.
  refine (discard_client_error Sample.bumpOnce Edge.unauthorized
            {| ne_graphQLErrors := Some [Edge.unauthorizedError] |}
            [Edge.unauthorizedError] Edge.unauthorizedError
            "AWSAppSyncClient:Unauthorized" Sample.queued 0
            eq_refl eq_refl eq_refl (or_introl eq_refl) eq_refl eq_refl).
Defined.

Lemma resolver_discard_answer_at_sample :
  discard (Sample.resolveWith (VStr "DISCARD")) Sample.conflict Sample.queued 0 =
    (Ok (VBool true), Sample.queued).
Proof.
  refine (resolver_discard_answer (fun _ => Ok (VStr "DISCARD"))
            Sample.conflict Sample.queued 0 Sample.conditionalCheckError _
            eq_refl eq_refl eq_refl).
Defined.

Lemma resolver_falsy_leaves_ceiling_at_sample :
  discard (Sample.resolveWith VNull) Sample.conflict Sample.queued 11 =
    (Ok (VBool true), Sample.queued).
Proof.
  refine (resolver_falsy_leaves_ceiling (fun _ => Ok VNull)
            Sample.conflict Sample.queued 11 Sample.conditionalCheckError _ VNull
            eq_refl eq_refl eq_refl eq_refl).
Defined.

Lemma discard_conditionalCheck_without_resolver_at_edge :
  discard (NotAFunction VNull) Sample.conflict Edge.malformed 3 =
    (Ok (VBool false), Edge.malformed).
Proof.
  refine (discard_conditionalCheck_without_resolver VNull Sample.conflict
            Edge.malformed 3 Sample.conditionalCheckError eq_refl
            (or_introl _)).
  discriminate.
Defined.

Lemma discard_permanent_at_edge :
  discard (NotAFunction VUndefined) Edge.permanentFailure Sample.queued 0 =
    (Ok (VStr "schema mismatch"), Sample.queued).
Proof.
  refine (discard_permanent (NotAFunction VUndefined) Edge.permanentFailure
            Sample.queued 0 eq_refl (or_introl eq_refl) eq_refl).
Defined.

(** The default resolver of an absent [fn] needs the queued mutation: on an
    action whose document holds no operation it throws, where a [null] [fn]
    answers. *)
Example discard_default_resolver_reads_mutation :
  fst (discard (NotAFunction VUndefined) Sample.conflict Edge.malformed 3) =
    Throw (TypeError "Cannot destructure property 'operation' of undefined")
  /\ fst (discard (NotAFunction VNull) Sample.conflict Edge.malformed 3) =
       Ok (VBool false).
Proof. split; reflexivity. Qed.
